(** * URL metadata extractor: a shallow embedding of
      [apps/url-metadata-extractor/main.py] and the properties of its
      extraction and reconciliation engine.

    Python values are modelled as the interpreter has them: a [str] is a
    sequence of Unicode code points, a [dict] keeps insertion order, [x or y]
    picks by truthiness, and exceptions are explicit results. *)

From Stdlib Require Import List NArith ZArith Bool String Ascii Lia.
From Stdlib Require Import SpecFloat.
Import ListNotations.

Set Implicit Arguments.
Set Warnings "-register-all".

(* ===================================================================== *)
(** ** Python strings *)
(* ===================================================================== *)

(** A Python [str]: the list of its code points. *)
Definition pystr := list N.

(** An ASCII literal of the source, as a [pystr]. *)
Definition u (s : string) : pystr := map N_of_ascii (list_ascii_of_string s).

(** JSON text written with the apostrophe standing for the double quote
    (U+0022), which the texts used below never contain otherwise. *)
Definition js (s : string) : pystr :=
  map (fun c => if N.eqb c 39 then 34%N else c) (u s).

Fixpoint str_eqb (a b : pystr) : bool :=
  match a, b with
  | [], [] => true
  | x :: a', y :: b' => N.eqb x y && str_eqb a' b'
  | _, _ => false
  end.

(** [s.startswith(p)] *)
Fixpoint startswith (p s : pystr) : bool :=
  match p, s with
  | [], _ => true
  | x :: p', y :: s' => N.eqb x y && startswith p' s'
  | _ :: _, [] => false
  end.

(** [p in s] for two strings: [p] occurs in [s] as a contiguous substring. *)
Fixpoint contains (p s : pystr) : bool :=
  startswith p s ||
  match s with
  | [] => false
  | _ :: s' => contains p s'
  end.

(** [Py_UNICODE_ISSPACE]: the whitespace of [str.strip()], [str.isspace()]
    and of [\s] in a [str] pattern. *)
Definition isspace (c : N) : bool :=
  ((9 <=? c) && (c <=? 13) || (28 <=? c) && (c <=? 32) ||
   (c =? 0x85) || (c =? 0xA0) || (c =? 0x1680) ||
   (0x2000 <=? c) && (c <=? 0x200A) ||
   (c =? 0x2028) || (c =? 0x2029) || (c =? 0x202F) || (c =? 0x205F) ||
   (c =? 0x3000))%N.

Fixpoint lstrip (s : pystr) : pystr :=
  match s with
  | c :: s' => if isspace c then lstrip s' else s
  | [] => []
  end.

Definition rstrip (s : pystr) : pystr := rev (lstrip (rev s)).

(** [s.strip()] *)
Definition strip (s : pystr) : pystr := rstrip (lstrip s).

Definition ascii_isupper (c : N) : bool := ((65 <=? c) && (c <=? 90))%N.
Definition ascii_islower (c : N) : bool := ((97 <=? c) && (c <=? 122))%N.
Definition ascii_isdigit (c : N) : bool := ((48 <=? c) && (c <=? 57))%N.
Definition ascii_isalnum (c : N) : bool :=
  ascii_isupper c || ascii_islower c || ascii_isdigit c.

Definition ascii_tolower (c : N) : N := if ascii_isupper c then (c + 32)%N else c.
Definition ascii_toupper (c : N) : N := if ascii_islower c then (c - 32)%N else c.

(** [s.lower()] on a string of ASCII characters. *)
Definition ascii_lower (s : pystr) : pystr := map ascii_tolower s.

(** [s.capitalize()] on a string of ASCII characters. *)
Definition ascii_capitalize (s : pystr) : pystr :=
  match s with
  | [] => []
  | c :: s' => ascii_toupper c :: map ascii_tolower s'
  end.

(** [sep.join(parts)] when every part is a [str]. *)
Fixpoint join (sep : pystr) (parts : list pystr) : pystr :=
  match parts with
  | [] => []
  | [p] => p
  | p :: rest => p ++ sep ++ join sep rest
  end.

(* ===================================================================== *)
(** ** Python values, truthiness, dictionaries *)
(* ===================================================================== *)

(** What [json.loads] can return, which is also all the engine ever holds. *)
Inductive pyval : Type :=
| PNone
| PBool (b : bool)
| PInt (z : Z)
| PFloat (f : spec_float)
| PStr (s : pystr)
| PList (l : list pyval)
| PDict (d : list (pystr * pyval)).

(** A [dict] with string keys, in insertion order. *)
Definition dict := list (pystr * pyval).

(** [bool(v)] *)
Definition truthy (v : pyval) : bool :=
  match v with
  | PNone => false
  | PBool b => b
  | PInt z => negb (Z.eqb z 0)
  | PFloat (S754_zero _) => false
  | PFloat _ => true
  | PStr s => match s with [] => false | _ => true end
  | PList l => match l with [] => false | _ => true end
  | PDict d => match d with [] => false | _ => true end
  end.

(** [a or b] *)
Definition por (a b : pyval) : pyval := if truthy a then a else b.

(** [d.get(k, default)] *)
Fixpoint dict_get_default (d : dict) (k : pystr) (default : pyval) : pyval :=
  match d with
  | [] => default
  | (k', v) :: d' => if str_eqb k' k then v else dict_get_default d' k default
  end.

(** [d.get(k)] *)
Definition dict_get (d : dict) (k : pystr) : pyval := dict_get_default d k PNone.

(** [k in d] *)
Fixpoint dict_mem (d : dict) (k : pystr) : bool :=
  match d with
  | [] => false
  | (k', _) :: d' => str_eqb k' k || dict_mem d' k
  end.

(** [d[k] = v]: an existing key keeps its place, a new one goes last. *)
Fixpoint dict_set (d : dict) (k : pystr) (v : pyval) : dict :=
  match d with
  | [] => [(k, v)]
  | (k', v') :: d' =>
      if str_eqb k' k then (k', v) :: d' else (k', v') :: dict_set d' k v
  end.

(** [d.update(e)] *)
Definition dict_update (d e : dict) : dict :=
  fold_left (fun acc kv => dict_set acc (fst kv) (snd kv)) e d.

(* ===================================================================== *)
(** ** Exceptions *)
(* ===================================================================== *)

Inductive exn : Type :=
| TypeError
| AttributeError
| JSONDecodeError
| ValidationError
| TimeoutException
| HTTPStatusError (status : N)
| OtherError
| HTTPException (status : N).

Inductive result (A : Type) : Type :=
| Ok (a : A)
| Raise (e : exn).
Arguments Ok {A} a.
Arguments Raise {A} e.

Definition bind {A B} (r : result A) (k : A -> result B) : result B :=
  match r with
  | Ok a => k a
  | Raise e => Raise e
  end.

Notation "x <- r ;; k" := (bind r (fun x => k))
  (at level 61, r at next level, right associativity).

(** [sep.join(items)] over arbitrary values: a [TypeError] unless every item
    is a [str]. *)
Fixpoint as_strs (items : list pyval) : result (list pystr) :=
  match items with
  | [] => Ok []
  | PStr s :: rest => ss <- as_strs rest ;; Ok (s :: ss)
  | _ :: _ => Raise TypeError
  end.

Definition str_join (sep : pystr) (items : list pyval) : result pystr :=
  ss <- as_strs items ;; Ok (join sep ss).

(* ===================================================================== *)
(** ** The parsed document (what BeautifulSoup hands to the engine) *)
(* ===================================================================== *)

(** An element tree: text nodes and tags with their attributes, in document
    order.  Attribute values are single strings, as they are for [type],
    [property], [name] and [content]. *)
Inductive node : Type :=
| NavigableString (s : pystr)
| Tag (name : pystr) (attrs : list (pystr * pystr)) (contents : list node).

(** The [BeautifulSoup] object: the top-level nodes of the page. *)
Definition soup := list node.

(** A node followed by everything below it, in document order. *)
Fixpoint walk (n : node) : list node :=
  n :: match n with
       | NavigableString _ => []
       | Tag _ _ cs => flat_map walk cs
       end.

Definition descendants (doc : soup) : list node := flat_map walk doc.

(** [tag.get(k)] *)
Fixpoint attr_get (attrs : list (pystr * pystr)) (k : pystr) : option pystr :=
  match attrs with
  | [] => None
  | (k', v) :: rest => if str_eqb k' k then Some v else attr_get rest k
  end.

(** [tag.get(k, default)] *)
Definition attr_get_default (attrs : list (pystr * pystr)) (k default : pystr) : pystr :=
  match attr_get attrs k with
  | Some v => v
  | None => default
  end.

(** [soup.find_all(name, <attribute filter>)] *)
Definition find_all (doc : soup) (name : pystr)
    (flt : list (pystr * pystr) -> bool) : list node :=
  filter (fun n => match n with
                   | Tag nm attrs _ => str_eqb nm name && flt attrs
                   | NavigableString _ => false
                   end) (descendants doc).

(** [soup.find(name, <attribute filter>)]: the first hit, or [None]. *)
Definition find (doc : soup) (name : pystr)
    (flt : list (pystr * pystr) -> bool) : option node :=
  hd_error (find_all doc name flt).

Definition any_attrs (attrs : list (pystr * pystr)) : bool := true.

(** filter [k=v]: the attribute is there with exactly that value *)
Definition attr_is (k v : pystr) (attrs : list (pystr * pystr)) : bool :=
  match attr_get attrs k with
  | Some v' => str_eqb v' v
  | None => false
  end.

(** filter [k=True]: the attribute is there *)
Definition attr_present (k : pystr) (attrs : list (pystr * pystr)) : bool :=
  match attr_get attrs k with
  | Some _ => true
  | None => false
  end.

(** [tag.string]: the single text child, looked for through single
    children; [None] when a tag has no child or more than one. *)
Fixpoint node_string (n : node) : option pystr :=
  match n with
  | NavigableString s => Some s
  | Tag _ _ [c] => node_string c
  | Tag _ _ _ => None
  end.

(** [tag.get_text()]: all the text below the tag, concatenated. *)
Fixpoint get_text (n : node) : pystr :=
  match n with
  | NavigableString s => s
  | Tag _ _ cs => flat_map get_text cs
  end.

(* ===================================================================== *)
(** ** Regular expressions of the source, with [re]'s backtracking order *)
(* ===================================================================== *)

Inductive regex : Type :=
| Chr (p : N -> bool)          (* one character of a class *)
| Eps
| Seq (a b : regex)
| Alt (a b : regex)            (* [a|b]: [a] is tried first *)
| StarC (p : N -> bool).       (* [[class]*], greedy *)

Definition Plus (p : N -> bool) : regex := Seq (Chr p) (StarC p).
Definition Opt (a : regex) : regex := Alt a Eps.
Definition Lit (s : pystr) : regex := fold_right (fun c r => Seq (Chr (N.eqb c)) r) Eps s.

(** [r1 r2 ... rn] and [r1|r2|...|rn] *)
Definition seqs (rs : list regex) : regex := fold_right Seq Eps rs.
Fixpoint alts (rs : list regex) : regex :=
  match rs with
  | [] => Chr (fun _ => false)
  | [r] => r
  | r :: rest => Alt r (alts rest)
  end.

Definition orelse {A} (a b : option A) : option A :=
  match a with
  | Some _ => a
  | None => b
  end.

(** Greedy star of a class: take one more character first, give it back when
    the rest of the pattern fails. *)
Fixpoint star_c (p : N -> bool) (s : pystr) (k : pystr -> option pystr) : option pystr :=
  match s with
  | c :: s' => if p c then orelse (star_c p s' k) (k s) else k s
  | [] => k []
  end.

(** [rmatch r s k]: match [r] at the start of [s] and hand the rest to the
    continuation; the first success in backtracking order is the answer. *)
Fixpoint rmatch (r : regex) (s : pystr) (k : pystr -> option pystr) : option pystr :=
  match r with
  | Chr p => match s with
             | c :: s' => if p c then k s' else None
             | [] => None
             end
  | Eps => k s
  | Seq a b => rmatch a s (fun s' => rmatch b s' k)
  | Alt a b => orelse (rmatch a s k) (rmatch b s k)
  | StarC p => star_c p s k
  end.

(** The text left after the match of [r] at the start of [s]. *)
Definition match_at (r : regex) (s : pystr) : option pystr := rmatch r s Some.

(** [re.findall(r, s)] for a pattern without groups: the matches from left
    to right, each search resuming where the previous match ended (one
    character further after an empty match). *)
Fixpoint findall_from (fuel : nat) (r : regex) (s : pystr) : list pystr :=
  match fuel with
  | O => []
  | S fuel' =>
      match match_at r s with
      | Some rest =>
          match firstn (List.length s - List.length rest) s with
          | [] => [] :: match s with
                        | [] => []
                        | _ :: s' => findall_from fuel' r s'
                        end
          | m => m :: findall_from fuel' r rest
          end
      | None => match s with
                | [] => []
                | _ :: s' => findall_from fuel' r s'
                end
      end
  end.

Definition findall (r : regex) (s : pystr) : list pystr :=
  findall_from (S (List.length s)) r s.

(* ===================================================================== *)
(** ** The extractors of [main.py] *)
(* ===================================================================== *)

Section Extractor.

(** What the engine takes from the Python runtime and its libraries, whose
    tables and code are not part of the program. *)

(** [str.lower()] (Unicode lower-casing). *)
Variable lower : pystr -> pystr.
(** [Py_UNICODE_ISALNUM] on the code points from U+0080 on. *)
Variable uni_isalnum : N -> bool.
(** [Py_UNICODE_ISDECIMAL] on the code points from U+0080 on. *)
Variable uni_isdecimal : N -> bool.
(** [json.loads] on a [str]; [None] stands for [json.JSONDecodeError]. *)
Variable json_loads : pystr -> option pyval.
(** pydantic's conversion to [str] of a value that is neither [None] nor a
    [str]; [None] stands for its [ValidationError]. *)
Variable coerce_str : pyval -> option pystr.

(** [\w] in a [str] pattern: alphanumeric or underscore. *)
Definition is_word (c : N) : bool :=
  if (c <? 128)%N then ascii_isalnum c || (c =? 95)%N else uni_isalnum c.

(** [\d] in a [str] pattern: a decimal digit. *)
Definition is_digit (c : N) : bool :=
  if (c <? 128)%N then ascii_isdigit c else uni_isdecimal c.

(** *** [_extract_address] *)

Definition _extract_address (address : pyval) : result pyval :=
  if negb (truthy address) then Ok PNone
  else match address with
       | PStr _ => Ok address
       | PDict d =>
           let parts := [ dict_get d (u "streetAddress");
                          dict_get d (u "addressLocality");
                          dict_get d (u "addressRegion");
                          dict_get d (u "postalCode");
                          dict_get d (u "addressCountry") ] in
           s <- str_join (u ", ") (filter truthy parts) ;; Ok (PStr s)
       | _ => Ok PNone
       end.

(** *** [_extract_schema_item] *)

(** A value without [.get] (anything but a [dict]) and an [@type] without
    [.lower] (anything but a [str]) raise [AttributeError]. *)
Definition _extract_schema_item (item : pyval) : result dict :=
  match item with
  | PDict d =>
      match dict_get_default d (u "@type") (PStr []) with
      | PStr t =>
          let item_type := lower t in
          if contains (u "localbusiness") item_type
             || contains (u "organization") item_type
             || contains (u "business") item_type
          then
            address <- _extract_address (dict_get d (u "address")) ;;
            Ok [ (u "businessName", por (dict_get d (u "name")) (dict_get d (u "legalName")));
                 (u "description", dict_get d (u "description"));
                 (u "address", address);
                 (u "industry", por (dict_get d (u "category")) (dict_get d (u "keywords"))) ]
          else if contains (u "person") item_type
          then
            Ok [ (u "businessName", dict_get d (u "name"));
                 (u "description", dict_get d (u "description"));
                 (u "industry", por (dict_get d (u "jobTitle")) (dict_get d (u "description"))) ]
          else Ok []
      | _ => Raise AttributeError
      end
  | _ => Raise AttributeError
  end.

(** *** [extract_from_schema_org] *)

(** The inner [for item in data] loop: the dictionary as mutated so far and
    the exception that stopped the loop, if any. *)
Fixpoint update_each (schema_data : dict) (items : list pyval) : dict * option exn :=
  match items with
  | [] => (schema_data, None)
  | item :: rest =>
      match _extract_schema_item item with
      | Ok r => update_each (dict_update schema_data r) rest
      | Raise e => (schema_data, Some e)
      end
  end.

(** The body of [try:] for one script element.  [json.loads(None)], for a
    script without a single text child, is a [TypeError]. *)
Definition schema_try (schema_data : dict) (script : node) : dict * option exn :=
  match node_string script with
  | None => (schema_data, Some TypeError)
  | Some text =>
      match json_loads text with
      | None => (schema_data, Some JSONDecodeError)
      | Some (PList items) => update_each schema_data items
      | Some (PDict d) => update_each schema_data [PDict d]
      | Some _ => (schema_data, None)
      end
  end.

(** [except (json.JSONDecodeError, AttributeError): continue] *)
Definition schema_caught (e : exn) : bool :=
  match e with
  | JSONDecodeError | AttributeError => true
  | _ => false
  end.

Fixpoint schema_loop (schema_data : dict) (scripts : list node) : result dict :=
  match scripts with
  | [] => Ok schema_data
  | script :: rest =>
      match schema_try schema_data script with
      | (schema_data', None) => schema_loop schema_data' rest
      | (schema_data', Some e) =>
          if schema_caught e then schema_loop schema_data' rest else Raise e
      end
  end.

Definition ld_json_scripts (doc : soup) : list node :=
  find_all doc (u "script") (attr_is (u "type") (u "application/ld+json")).

Definition extract_from_schema_org (doc : soup) : result dict :=
  schema_loop [] (ld_json_scripts doc).

(** *** [extract_from_open_graph], [extract_from_twitter_card] *)

Definition og_meta_mapping : list (pystr * pystr) :=
  [ (u "og:title", u "businessName");
    (u "og:site_name", u "businessName");
    (u "og:description", u "description");
    (u "og:image", u "logo");
    (u "og:url", u "website");
    (u "og:type", u "industry") ].

Definition twitter_meta_mapping : list (pystr * pystr) :=
  [ (u "twitter:title", u "businessName");
    (u "twitter:description", u "description");
    (u "twitter:image", u "logo") ].

(** One turn of the loop over the meta elements: [key] is the attribute that
    names the property ([property] or [name]). *)
Definition meta_step (meta_mapping : list (pystr * pystr)) (key : pystr)
    (data : dict) (meta : node) : dict :=
  match meta with
  | Tag _ attrs _ =>
      let prop := lower (attr_get_default attrs key []) in
      match attr_get meta_mapping prop, attr_get attrs (u "content") with
      | Some field, Some content =>
          if truthy (PStr content) && negb (truthy (dict_get data field))
          then dict_set data field (PStr content)
          else data
      | _, _ => data
      end
  | NavigableString _ => data
  end.

Definition og_metas (doc : soup) : list node :=
  find_all doc (u "meta") (attr_present (u "property")).

Definition extract_from_open_graph (doc : soup) : dict :=
  fold_left (meta_step og_meta_mapping (u "property")) (og_metas doc) [].

(** [re.compile(r'^twitter:', re.I)]: with [re.I] a lower-case letter of the
    pattern also takes its upper case, and [i] also U+0130 and U+0131. *)
Definition ci (c : N) (x : N) : bool :=
  (x =? c)%N || (x =? ascii_toupper c)%N ||
  ((c =? 105)%N && ((x =? 0x130)%N || (x =? 0x131)%N)).

Definition twitter_re : regex :=
  fold_right (fun c r => Seq (Chr (ci c)) r) Eps (u "twitter:").

(** filter [attrs={'name': re.compile(...)}]: the pattern is searched in the
    attribute's value, and [^] pins the search to its start. *)
Definition attr_matches_twitter (attrs : list (pystr * pystr)) : bool :=
  match attr_get attrs (u "name") with
  | Some v => match match_at twitter_re v with Some _ => true | None => false end
  | None => false
  end.

Definition twitter_metas (doc : soup) : list node :=
  find_all doc (u "meta") attr_matches_twitter.

Definition extract_from_twitter_card (doc : soup) : dict :=
  fold_left (meta_step twitter_meta_mapping (u "name")) (twitter_metas doc) [].

(** *** [extract_from_html] *)

Definition opt_str (o : option pystr) : pyval :=
  match o with
  | Some s => PStr s
  | None => PNone
  end.

Definition extract_from_html (doc : soup) (url : pystr) : dict :=
  let html_data := [] in
  let html_data :=
    match find doc (u "title") any_attrs with
    | Some title => dict_set html_data (u "businessName") (PStr (strip (get_text title)))
    | None => html_data
    end in
  let html_data :=
    match find doc (u "meta") (attr_is (u "name") (u "description")) with
    | Some (Tag _ attrs _) =>
        dict_set html_data (u "description") (opt_str (attr_get attrs (u "content")))
    | _ => html_data
    end in
  match find doc (u "h1") any_attrs with
  | Some h1 => dict_set html_data (u "businessName") (PStr (strip (get_text h1)))
  | None => html_data
  end.

(** *** [detect_industry_from_url] *)

Definition industry_patterns : list (pystr * list pystr) :=
  [ (u "salon", [u "salon"; u "beauty"; u "hair"; u "nail"; u "spa"; u "barber"]);
    (u "restaurant", [u "restaurant"; u "cafe"; u "diner"; u "bistro"; u "eatery"]);
    (u "retail", [u "shop"; u "store"; u "boutique"; u "market"; u "retail"]);
    (u "fitness", [u "fitness"; u "gym"; u "yoga"; u "pilates"; u "crossfit"]);
    (u "professional", [u "law"; u "legal"; u "accounting"; u "consulting"; u "firm"]);
    (u "creative", [u "design"; u "creative"; u "agency"; u "studio"; u "art"]);
    (u "technology", [u "tech"; u "software"; u "app"; u "digital"; u "startup"]);
    (u "healthcare", [u "medical"; u "dental"; u "health"; u "clinic"; u "pharmacy"]);
    (u "education", [u "school"; u "education"; u "tutor"; u "learn"; u "academy"]) ].

(** The first category, in the order of the table, one of whose patterns
    occurs in the lower-cased URL; its key is ASCII, so [capitalize] is the
    ASCII one. *)
Definition detect_industry_from_url (url : pystr) (doc : soup) : pyval :=
  let url_lower := lower url in
  match List.find (fun entry => existsb (fun pattern => contains pattern url_lower) (snd entry))
                  industry_patterns with
  | Some (industry, _) => PStr (ascii_capitalize industry)
  | None => PNone
  end.

(** *** [extract_address_from_text] *)

Definition upper_AZ (c : N) : bool := ascii_isupper c.
Definition lower_az (c : N) : bool := ascii_islower c.
Definition comma_or_space (c : N) : bool := (c =? 44)%N || isspace c.

Definition street_type : regex :=
  alts [ Lit (u "Street"); Lit (u "St"); Lit (u "Ave"); Lit (u "Avenue");
         Lit (u "Blvd"); Lit (u "Boulevard"); Lit (u "Road"); Lit (u "Rd");
         Lit (u "Lane"); Lit (u "Ln"); Lit (u "Drive"); Lit (u "Dr") ].

(** [\d+\s+[A-Z][a-z]+\s+(?:Street|St|...|Dr)[,\s]+[A-Z][a-z]+(?:,\s*[A-Z]{2})?(?:\s*\d{5})?] *)
Definition address_pattern : regex :=
  seqs [ Plus is_digit; Plus isspace;
         Chr upper_AZ; Plus lower_az; Plus isspace;
         street_type; Plus comma_or_space;
         Chr upper_AZ; Plus lower_az;
         Opt (seqs [ Chr (N.eqb 44); StarC isspace; Chr upper_AZ; Chr upper_AZ ]);
         Opt (seqs [ StarC isspace; Chr is_digit; Chr is_digit; Chr is_digit;
                     Chr is_digit; Chr is_digit ]) ].

Definition extract_address_from_text (doc : soup) : pyval :=
  match find doc (u "footer") any_attrs with
  | None => PNone
  | Some footer =>
      let text := get_text footer in
      match findall address_pattern text with
      | m :: _ => PStr m
      | [] => PNone
      end
  end.

(* ===================================================================== *)
(** ** The reconciliation engine and the [/extract] endpoint *)
(* ===================================================================== *)

(** *** The response model *)

Record BusinessMetadata : Type := mkBusinessMetadata {
  businessName : option pystr;
  description : option pystr;
  industry : option pystr;
  address : option pystr;
  website : option pystr;
  logo : option pystr;
  rawMetadata : option dict;
  requiresAuth : option bool;
  platform : option pystr;
  authUrl : option pystr
}.

(** Validation of an [Optional[str]] field. *)
Definition validate_str (v : pyval) : result (option pystr) :=
  match v with
  | PNone => Ok None
  | PStr s => Ok (Some s)
  | _ => match coerce_str v with
         | Some s => Ok (Some s)
         | None => Raise ValidationError
         end
  end.

(** Validation of the [Optional[Dict[str, Any]]] field. *)
Definition validate_dict (v : pyval) : result (option dict) :=
  match v with
  | PNone => Ok None
  | PDict d => Ok (Some d)
  | _ => Raise ValidationError
  end.

(** The construction of [BusinessMetadata] from the keys of [merged_data]. *)
Definition BusinessMetadata_of (merged_data : dict) : result BusinessMetadata :=
  n <- validate_str (dict_get merged_data (u "businessName")) ;;
  d <- validate_str (dict_get merged_data (u "description")) ;;
  i <- validate_str (dict_get merged_data (u "industry")) ;;
  a <- validate_str (dict_get merged_data (u "address")) ;;
  w <- validate_str (dict_get merged_data (u "website")) ;;
  l <- validate_str (dict_get merged_data (u "logo")) ;;
  r <- validate_dict (dict_get merged_data (u "rawMetadata")) ;;
  Ok (mkBusinessMetadata n d i a w l r None None None).

(** *** The merge *)

(** The [merged_data] literal: every field is an [or] chain over the sources
    in their priority order. *)
Definition merge (schema_data og_data twitter_data html_data : dict)
    (detected_industry detected_address : pyval) (url : pystr) : dict :=
  [ (u "businessName",
       por (por (por (dict_get schema_data (u "businessName"))
                     (dict_get og_data (u "businessName")))
                (dict_get twitter_data (u "businessName")))
           (dict_get html_data (u "businessName")));
    (u "description",
       por (por (por (dict_get schema_data (u "description"))
                     (dict_get og_data (u "description")))
                (dict_get twitter_data (u "description")))
           (dict_get html_data (u "description")));
    (u "industry",
       por (por (dict_get schema_data (u "industry"))
                (dict_get og_data (u "industry")))
           detected_industry);
    (u "address",
       por (dict_get schema_data (u "address")) detected_address);
    (u "website",
       por (dict_get og_data (u "website")) (PStr url));
    (u "logo",
       por (por (dict_get schema_data (u "logo"))
                (dict_get og_data (u "logo")))
           (dict_get twitter_data (u "logo")));
    (u "rawMetadata",
       PDict [ (u "schema", PDict schema_data);
               (u "openGraph", PDict og_data);
               (u "twitter", PDict twitter_data);
               (u "html", PDict html_data);
               (u "detectedIndustry", detected_industry) ]) ].

(** The extraction and the merge: lines 520 to 567 of [extract_metadata]. *)
Definition merged_of (doc : soup) (url : pystr) : result dict :=
  schema_data <- extract_from_schema_org doc ;;
  let og_data := extract_from_open_graph doc in
  let twitter_data := extract_from_twitter_card doc in
  let html_data := extract_from_html doc url in
  let detected_industry := detect_industry_from_url url doc in
  let detected_address := extract_address_from_text doc in
  Ok (merge schema_data og_data twitter_data html_data
            detected_industry detected_address url).

(** *** The clean-up of the business name *)

(** The characters [re.sub(r'[^\w\s\-\&]', '', ...)] leaves in place. *)
Definition keep_char (c : N) : bool :=
  is_word c || isspace c || (c =? 45)%N || (c =? 38)%N.

(** [re.sub(r'[^\w\s\-\&]', '', name).strip()] *)
Definition sanitize (name : pystr) : pystr := strip (filter keep_char name).

(** [if merged_data['businessName']: merged_data['businessName'] = ...];
    [re.sub] on a value that is not a [str] is a [TypeError]. *)
Definition clean_business_name (merged_data : dict) : result dict :=
  let name := dict_get merged_data (u "businessName") in
  if truthy name
  then match name with
       | PStr s => Ok (dict_set merged_data (u "businessName") (PStr (sanitize s)))
       | _ => Raise TypeError
       end
  else Ok merged_data.

(** The engine on a fetched and parsed page: lines 520 to 573. *)
Definition engine (doc : soup) (url : pystr) : result BusinessMetadata :=
  merged_data <- merged_of doc url ;;
  merged_data <- clean_business_name merged_data ;;
  BusinessMetadata_of merged_data.

(** *** [extract_metadata] *)

(** The record of the Instagram shortcut. *)
Definition instagram_record (url : pystr) : BusinessMetadata :=
  mkBusinessMetadata None None (Some (u "Social Media")) None (Some url) None
    (Some [ (u "source", PStr (u "instagram")); (u "oauthAvailable", PBool true) ])
    None None None.

(** The [except] clauses around the fetch and the engine. *)
Definition to_http_error (e : exn) : exn :=
  match e with
  | TimeoutException => HTTPException 408
  | HTTPStatusError status => HTTPException status
  | _ => HTTPException 500
  end.

(** [fetch] is the GET of the page and its parsing: the document, or the
    exception of the HTTP client. *)
Definition extract_metadata (fetch : pystr -> result soup) (url : pystr)
    : result BusinessMetadata :=
  if negb (startswith (u "http://") url || startswith (u "https://") url)
  then Raise (HTTPException 400)
  else if contains (u "instagram.com") (lower url)
  then Ok (instagram_record url)
  else match (doc <- fetch url ;; engine doc url) with
       | Ok r => Ok r
       | Raise e => Raise (to_http_error e)
       end.

End Extractor.

(* ===================================================================== *)
(** ** A runtime to evaluate the engine on concrete pages *)
(* ===================================================================== *)

(** Letters, digits and numeric characters of the Unicode database from
    U+0080 to U+00FF; the pages used below hold no other alphanumeric
    character beyond ASCII. *)
Definition latin1_isalnum (c : N) : bool :=
  ((c =? 0xAA) || (c =? 0xB2) || (c =? 0xB3) || (c =? 0xB5) || (c =? 0xB9) ||
   (c =? 0xBA) || (0xBC <=? c) && (c <=? 0xBE) ||
   (0xC0 <=? c) && (c <=? 0xD6) || (0xD8 <=? c) && (c <=? 0xF6) ||
   (0xF8 <=? c) && (c <=? 0xFF))%N.

(** No decimal digit lies between U+0080 and U+00FF. *)
Definition latin1_isdecimal (c : N) : bool := false.

(** pydantic 2: a field declared [str] takes nothing but a [str]. *)
Definition strict_str (v : pyval) : option pystr := None.

(** A decoder given by the table of the texts it decodes; every other text
    is a decoding error. *)
Fixpoint loads_table (table : list (pystr * pyval)) (text : pystr) : option pyval :=
  match table with
  | [] => None
  | (t, v) :: rest => if str_eqb t text then Some v else loads_table rest text
  end.

(* ===================================================================== *)
(** ** Vocabulary of the properties *)
(* ===================================================================== *)

(** A string that neither starts nor ends with whitespace. *)
Definition trimmed (s : pystr) : Prop :=
  (forall c t, s = c :: t -> isspace c = false) /\
  (forall c t, s = t ++ [c] -> isspace c = false).

(** [c.isalnum()] for one character. *)
Definition is_alnum (uni_isalnum : N -> bool) (c : N) : bool :=
  if (c <? 128)%N then ascii_isalnum c else uni_isalnum c.

(** A name that is already clean: alphanumeric characters and spaces only,
    with no whitespace at either end. *)
Definition already_sanitized (uni_isalnum : N -> bool) (s : pystr) : Prop :=
  Forall (fun c => is_alnum uni_isalnum c = true \/ c = 32%N) s /\ trimmed s.

(** The name of the sanitization example: Joe's Caf, U+00E9 (e with acute
    accent), a space, U+1F389 (party popper). *)
Definition cafe_name : pystr := u "Joe's Caf" ++ [0xE9; 0x20; 0x1F389]%N.

(** *** The address formatter, in the words of its contract *)

Definition address_keys : list pystr :=
  [ u "streetAddress"; u "addressLocality"; u "addressRegion";
    u "postalCode"; u "addressCountry" ].

(** A component that is present: a non-empty string. *)
Definition present_component (v : pyval) : list pystr :=
  match v with
  | PStr (c :: s) => [c :: s]
  | _ => []
  end.

(** The present components of an address object, in the fixed order. *)
Definition address_components (d : dict) : list pystr :=
  flat_map present_component (map (dict_get d) address_keys).

(** Every component of an address object is absent, null or a string. *)
Definition components_are_strings (address : pyval) : Prop :=
  match address with
  | PDict d => Forall (fun v => v = PNone \/ exists s, v = PStr s)
                 (map (dict_get d) address_keys)
  | _ => True
  end.

(** A non-empty string comes back as it is; an address object with at least
    one key gives its present components joined with a comma and a space
    (the empty string when none is present); anything else gives [None]. *)
Definition address_formatter (address : pyval) : pyval :=
  match address with
  | PStr (c :: s) => PStr (c :: s)
  | PDict (kv :: d) => PStr (join (u ", ") (address_components (kv :: d)))
  | _ => PNone
  end.

(** *** Pages and decoders of the examples *)

Definition text_node (s : string) : node := NavigableString (u s).

Definition ld_json_script (contents : list node) : node :=
  Tag (u "script") [(u "type", u "application/ld+json")] contents.

Definition page (head body : list node) : soup :=
  [ Tag (u "html") [] [ Tag (u "head") [] head; Tag (u "body") [] body ] ].

(** A page whose structured-data script element is empty. *)
Definition empty_script_page : soup :=
  page [ Tag (u "title") [] [text_node "Acme Salon"]; ld_json_script [] ] [].

(** A fetch that answers every URL with the same page. *)
Definition serve (doc : soup) (url : pystr) : result soup := Ok doc.

(** Two organization items in one block; the second has no name. *)
Definition first_org : pyval :=
  PDict [ (u "@type", PStr (u "Organization"));
          (u "name", PStr (u "Acme"));
          (u "description", PStr (u "First")) ].

Definition second_org : pyval :=
  PDict [ (u "@type", PStr (u "Organization"));
          (u "description", PStr (u "Second")) ].

Definition two_orgs_text : pystr :=
  js "[{'@type': 'Organization', 'name': 'Acme', 'description': 'First'}, {'@type': 'Organization', 'description': 'Second'}]".

Definition two_orgs_loads : pystr -> option pyval :=
  loads_table [ (two_orgs_text, PList [first_org; second_org]) ].

Definition two_orgs_page : soup :=
  page [ ld_json_script [NavigableString two_orgs_text] ] [].

(** The fields a business-like and a person-like item emit. *)
Definition business_keys : list pystr :=
  [ u "businessName"; u "description"; u "address"; u "industry" ].
Definition person_keys : list pystr :=
  [ u "businessName"; u "description"; u "industry" ].

(** A person item with an empty name, next to an Open Graph title. *)
Definition nameless_person : pyval :=
  PDict [ (u "@type", PStr (u "Person")); (u "name", PStr []) ].

Definition nameless_person_text : pystr := js "{'@type': 'Person', 'name': ''}".

Definition nameless_person_loads : pystr -> option pyval :=
  loads_table [ (nameless_person_text, nameless_person) ].

Definition nameless_person_page : soup :=
  page [ ld_json_script [NavigableString nameless_person_text];
         Tag (u "meta") [ (u "property", u "og:title");
                          (u "content", u "Acme Studio") ] [] ]
       [].

(** Scenario B: the title Joe's Pizza, U+2014 (em dash), Home. *)
Definition pizza_title : pystr := u "Joe's Pizza " ++ [0x2014%N] ++ u " Home".
Definition pizza_url : pystr := u "https://joespizza.example".
Definition pizza_page : soup :=
  page [ Tag (u "title") [] [NavigableString pizza_title] ]
       [ Tag (u "p") [] [text_node "Fresh slices daily."] ].

(** A page whose only name is U+1F389 (party popper). *)
Definition emoji_page : soup :=
  page [ Tag (u "title") [] [NavigableString [0x1F389%N]] ] [].

(** A value read as a field of the response: a string or nothing. *)
Definition field_of (v : pyval) : option pystr :=
  match v with
  | PStr s => Some s
  | _ => None
  end.

(** Scenario A: a local business with a name, next to an Open Graph title. *)
Definition acme_salon : pyval :=
  PDict [ (u "@type", PStr (u "LocalBusiness"));
          (u "name", PStr (u "Acme Salon"));
          (u "address", PDict [ (u "streetAddress", PStr (u "1 Main St"));
                                (u "addressLocality", PStr (u "Springfield")) ]) ].

Definition acme_salon_text : pystr :=
  js "{'@type': 'LocalBusiness', 'name': 'Acme Salon', 'address': {'streetAddress': '1 Main St', 'addressLocality': 'Springfield'}}".

Definition acme_salon_loads : pystr -> option pyval :=
  loads_table [ (acme_salon_text, acme_salon) ].

Definition acme_salon_page : soup :=
  page [ ld_json_script [NavigableString acme_salon_text];
         Tag (u "meta") [ (u "property", u "og:title");
                          (u "content", u "Acme | Book online") ] [] ]
       [].

(** A continuation that never returns more text than it was given. *)
Definition shrinking (k : pystr -> option pystr) : Prop :=
  forall t x, k t = Some x -> List.length x <= List.length t.

(** Every value of a dictionary is truthy. *)
Definition all_truthy (d : dict) : Prop :=
  Forall (fun kv => truthy (snd kv) = true) d.

(** A value that is [None] or truthy: never an empty string. *)
Definition none_or_truthy (v : pyval) : Prop := v = PNone \/ truthy v = true.

(* ===================================================================== *)
(** ** The Instagram OAuth endpoints of [main.py] *)
(* ===================================================================== *)

(** The dictionary [get_instagram_config] returns: three keys, all strings. *)
Record InstagramConfig : Type := mkInstagramConfig {
  client_id : pystr;
  client_secret : pystr;
  redirect_uri : pystr
}.

Record InstagramAuthRequest : Type := mkInstagramAuthRequest {
  code : pystr;
  redirectUri : option pystr
}.

Record InstagramProfileRequest : Type := mkInstagramProfileRequest {
  accessToken : pystr;
  instagramBusinessId : pystr
}.

(** [v == key] for a string [key]: only an equal string is. *)
Definition is_str (key : pystr) (v : pyval) : bool :=
  match v with
  | PStr s => str_eqb s key
  | _ => false
  end.

(** [key in data]: a key of a dictionary, an element of a list, a substring
    of a string; nothing else is a container. *)
Definition py_in (key : pystr) (data : pyval) : result bool :=
  match data with
  | PDict d => Ok (dict_mem d key)
  | PList l => Ok (existsb (is_str key) l)
  | PStr s => Ok (contains key s)
  | _ => Raise TypeError
  end.

(** [data[key]] with a string key: only a dictionary takes one
    ([OtherError] stands for the [KeyError] of a missing key). *)
Definition py_subscript (data : pyval) (key : pystr) : result pyval :=
  match data with
  | PDict d => if dict_mem d key then Ok (dict_get d key) else Raise OtherError
  | _ => Raise TypeError
  end.

(** [data.get(key, default)]: only a dictionary has the method. *)
Definition py_get (data : pyval) (key : pystr) (default : pyval) : result pyval :=
  match data with
  | PDict d => Ok (dict_get_default d key default)
  | _ => Raise AttributeError
  end.

(** [s.split(sep)] for a separator of one character. *)
Fixpoint split_char (sep : N) (s : pystr) : list pystr :=
  match s with
  | [] => [[]]
  | c :: s' =>
      if (c =? sep)%N then [] :: split_char sep s'
      else match split_char sep s' with
           | piece :: pieces => (c :: piece) :: pieces
           | [] => [[c]]
           end
  end.

(** The [except] clauses of the OAuth endpoints: the status of the upstream
    answer, and 500 for every other exception, an [HTTPException] raised
    inside the [try] included. *)
Definition oauth_http_error (e : exn) : exn :=
  match e with
  | HTTPStatusError status => HTTPException status
  | _ => HTTPException 500
  end.

Definition catch_oauth {A} (r : result A) : result A :=
  match r with
  | Ok a => Ok a
  | Raise e => Raise (oauth_http_error e)
  end.

Section Instagram.

(** [os.getenv]: the value of a variable, [None] when it is not set. *)
Variable getenv : pystr -> option pystr.
(** A GET of the HTTP client with its query parameters, followed by
    [raise_for_status()] and [json()]: the decoded body, or the exception. *)
Variable http_get : pystr -> dict -> result pyval.
(** pydantic's conversion to [str], as for the extraction endpoint. *)
Variable coerce_str : pyval -> option pystr.

(** *** [get_instagram_config] *)

Definition get_instagram_config : result InstagramConfig :=
  let client_id := getenv (u "INSTAGRAM_CLIENT_ID") in
  let client_secret := getenv (u "INSTAGRAM_CLIENT_SECRET") in
  let redirect_uri :=
    match getenv (u "INSTAGRAM_REDIRECT_URI") with
    | Some v => v
    | None => u "https://znapsite.com/auth/instagram/callback"
    end in
  match client_id, client_secret with
  | Some (c :: i), Some (d :: s) => Ok (mkInstagramConfig (c :: i) (d :: s) redirect_uri)
  | _, _ => Raise (HTTPException 500)
  end.

(** *** [get_instagram_auth_url] *)

Definition instagram_scope : pystr :=
  u "pages_show_list," ++
  u "instagram_basic," ++
  u "instagram_manage_comments," ++
  u "instagram_manage_insights," ++
  u "instagram_content_publish," ++
  u "instagram_manage_messages," ++
  u "pages_read_engagement," ++
  u "instagram_shopping_tag_products," ++
  u "instagram_branded_content_brand," ++
  u "instagram_branded_content_creator," ++
  u "instagram_branded_content_ads_brand," ++
  u "instagram_manage_upcoming_events," ++
  u "instagram_creator_marketplace_discovery," ++
  u "instagram_manage_contents".

Definition get_instagram_auth_url : result dict :=
  config <- get_instagram_config ;;
  let scope := instagram_scope in
  let auth_url :=
    u "https://www.facebook.com/v18.0/dialog/oauth" ++
    u "?client_id=" ++ client_id config ++
    u "&redirect_uri=" ++ redirect_uri config ++
    u "&scope=" ++ scope ++
    u "&response_type=code" in
  Ok [ (u "authUrl", PStr auth_url);
       (u "platform", PStr (u "instagram"));
       (u "scopes", PList (map PStr (split_char 44 scope))) ].

(** *** [instagram_callback] *)

(** [if 'access_token' not in data: raise HTTPException(400, f"...{data.get('error', 'Unknown error')}")]
    followed by [data['access_token']]. *)
Definition access_token_of (data : pyval) : result pyval :=
  present <- py_in (u "access_token") data ;;
  if negb present
  then (_ <- py_get data (u "error") (PStr (u "Unknown error")) ;;
        Raise (HTTPException 400))
  else py_subscript data (u "access_token").

(** The query parameters of the two exchanges. *)
Definition code_exchange_params (config : InstagramConfig) (redirect : pystr)
    (request : InstagramAuthRequest) : dict :=
  [ (u "client_id", PStr (client_id config));
    (u "client_secret", PStr (client_secret config));
    (u "redirect_uri", PStr redirect);
    (u "code", PStr (code request)) ].

Definition token_exchange_params (config : InstagramConfig)
    (short_lived_token : pyval) : dict :=
  [ (u "grant_type", PStr (u "ig_exchange_token"));
    (u "client_secret", PStr (client_secret config));
    (u "access_token", short_lived_token) ].

(** The body of [try:]. *)
Definition instagram_callback_body (config : InstagramConfig) (redirect : pystr)
    (request : InstagramAuthRequest) : result dict :=
  token_data <- http_get (u "https://graph.facebook.com/v18.0/oauth/access_token")
                  (code_exchange_params config redirect request) ;;
  short_lived_token <- access_token_of token_data ;;
  long_lived_data <- http_get (u "https://graph.instagram.com/access_token")
                       (token_exchange_params config short_lived_token) ;;
  long_lived_token <- access_token_of long_lived_data ;;
  expires_in <- py_get long_lived_data (u "expires_in") (PInt 5184000) ;;
  Ok [ (u "accessToken", long_lived_token);
       (u "tokenType", PStr (u "long-lived"));
       (u "expiresIn", expires_in) ].

(** [request.redirectUri or config['redirect_uri']] *)
Definition callback_redirect (config : InstagramConfig)
    (request : InstagramAuthRequest) : pystr :=
  match redirectUri request with
  | Some (c :: s) => c :: s
  | _ => redirect_uri config
  end.

Definition instagram_callback (request : InstagramAuthRequest) : result dict :=
  config <- get_instagram_config ;;
  let redirect := callback_redirect config request in
  catch_oauth (instagram_callback_body config redirect request).

(** *** [get_instagram_business_accounts] *)

Definition get_instagram_business_accounts (access_token : pystr) : result pyval :=
  catch_oauth
    (http_get (u "https://graph.facebook.com/v18.0/me/accounts")
       [ (u "fields", PStr (u "instagram_business_account,id,name"));
         (u "access_token", PStr access_token) ]).

(** *** [get_instagram_profile] *)

Definition profile_url (request : InstagramProfileRequest) : pystr :=
  u "https://graph.facebook.com/v18.0/" ++ instagramBusinessId request.

Definition profile_params (request : InstagramProfileRequest) : dict :=
  [ (u "fields", PStr (u "username,name,biography,profile_pic_url,website,followers_count,media_count,ig_id"));
    (u "access_token", PStr (accessToken request)) ].

(** The body of [try:]. *)
Definition get_instagram_profile_body (request : InstagramProfileRequest)
    : result BusinessMetadata :=
  profile_data <- http_get (profile_url request) (profile_params request) ;;
  has_error <- py_in (u "error") profile_data ;;
  if has_error
  then (_ <- py_subscript profile_data (u "error") ;; Raise (HTTPException 400))
  else
    name <- py_get profile_data (u "name") PNone ;;
    username <- py_get profile_data (u "username") PNone ;;
    biography <- py_get profile_data (u "biography") PNone ;;
    site <- py_get profile_data (u "website") PNone ;;
    picture <- py_get profile_data (u "profile_pic_url") PNone ;;
    followers <- py_get profile_data (u "followers_count") PNone ;;
    media <- py_get profile_data (u "media_count") PNone ;;
    ig_id <- py_get profile_data (u "ig_id") PNone ;;
    n <- validate_str coerce_str (por name username) ;;
    d <- validate_str coerce_str biography ;;
    w <- validate_str coerce_str site ;;
    l <- validate_str coerce_str picture ;;
    Ok (mkBusinessMetadata n d (Some (u "Social Media")) None w l
          (Some [ (u "platform", PStr (u "instagram"));
                  (u "username", username);
                  (u "followersCount", followers);
                  (u "mediaCount", media);
                  (u "igId", ig_id) ])
          None None None).

Definition get_instagram_profile (request : InstagramProfileRequest)
    : result BusinessMetadata :=
  catch_oauth (get_instagram_profile_body request).

End Instagram.

(* ===================================================================== *)
(** ** Vocabulary of the further properties *)
(* ===================================================================== *)

(** The content of the first of [metas] that names [field] through
    [meta_mapping] and has a non-empty content; [None] when there is none. *)
Fixpoint first_content (lower : pystr -> pystr) (meta_mapping : list (pystr * pystr))
    (key : pystr) (metas : list node) (field : pystr) : pyval :=
  match metas with
  | [] => PNone
  | Tag _ attrs _ :: rest =>
      match attr_get meta_mapping (lower (attr_get_default attrs key [])),
            attr_get attrs (u "content") with
      | Some f, Some (c :: content) =>
          if str_eqb f field then PStr (c :: content)
          else first_content lower meta_mapping key rest field
      | _, _ => first_content lower meta_mapping key rest field
      end
  | NavigableString _ :: rest => first_content lower meta_mapping key rest field
  end.

(** Every value of a dictionary is a non-empty string. *)
Definition all_nonempty_str (d : dict) : Prop :=
  Forall (fun kv => exists c s, snd kv = PStr (c :: s)) d.

(** Every key of a dictionary is one of [keys]. *)
Definition keys_within (keys : list pystr) (d : dict) : Prop :=
  Forall (fun kv => In (fst kv) keys) d.

Definition is_dict (v : pyval) : bool :=
  match v with
  | PDict _ => true
  | _ => false
  end.

Definition is_pstr (v : pyval) : bool :=
  match v with
  | PStr _ => true
  | _ => false
  end.

(** A character the clean-up keeps and that is not whitespace. *)
Definition kept_visible (uni_isalnum : N -> bool) (c : N) : bool :=
  keep_char uni_isalnum c && negb (isspace c).

(** An environment given by the table of the variables that are set. *)
Fixpoint env_table (table : list (pystr * pystr)) (name : pystr) : option pystr :=
  match table with
  | [] => None
  | (n, v) :: rest => if str_eqb n name then Some v else env_table rest name
  end.

(** An upstream given by the table of the URLs it answers; every other
    request fails with status 404. *)
Fixpoint http_table (table : list (pystr * result pyval)) (url : pystr) (params : dict)
    : result pyval :=
  match table with
  | [] => Raise (HTTPStatusError 404)
  | (a, r) :: rest => if str_eqb a url then r else http_table rest url params
  end.

(** *** Pages, environments and upstreams of the further examples *)

(** A page with an address in its footer. *)
Definition footer_page : soup :=
  page [ Tag (u "title") [] [text_node "Acme"] ]
       [ Tag (u "footer") []
           [ Tag (u "p") [] [text_node "Visit us at 123 Main Street, Springfield, IL 62704 today."] ] ].

(** A block of three items, the second of which is a bare string. *)
Definition cut_short_text : pystr :=
  js "[{'@type': 'Organization', 'name': 'Acme', 'description': 'First'}, 'oops', {'@type': 'Organization', 'description': 'Second'}]".

Definition cut_short_loads : pystr -> option pyval :=
  loads_table [ (cut_short_text, PList [first_org; PStr (u "oops"); second_org]) ].

Definition cut_short_script : node := ld_json_script [NavigableString cut_short_text].

(** A business whose address has a country object, as Schema.org allows. *)
Definition country_object_item : pyval :=
  PDict [ (u "@type", PStr (u "LocalBusiness"));
          (u "name", PStr (u "Acme"));
          (u "address",
             PDict [ (u "streetAddress", PStr (u "1 Main St"));
                     (u "addressCountry",
                        PDict [ (u "@type", PStr (u "Country"));
                                (u "name", PStr (u "US")) ]) ]) ].

Definition country_object_text : pystr :=
  js "[{'@type': 'LocalBusiness', 'name': 'Acme', 'address': {'streetAddress': '1 Main St', 'addressCountry': {'@type': 'Country', 'name': 'US'}}}]".

Definition country_object_loads : pystr -> option pyval :=
  loads_table [ (country_object_text, PList [country_object_item]) ].

Definition country_object_script : node :=
  ld_json_script [NavigableString country_object_text].

(** An organization whose name is a number. *)
Definition numeric_name_text : pystr := js "{'@type': 'Organization', 'name': 404}".

Definition numeric_name_loads : pystr -> option pyval :=
  loads_table [ (numeric_name_text,
                 PDict [ (u "@type", PStr (u "Organization")); (u "name", PInt 404) ]) ].

Definition numeric_name_page : soup :=
  page [ ld_json_script [NavigableString numeric_name_text] ] [].

(** A page with og:type and og:url, served from a URL that names a salon. *)
Definition og_type_page : soup :=
  page [ Tag (u "title") [] [text_node "Acme"];
         Tag (u "meta") [ (u "property", u "og:type"); (u "content", u "website") ] [];
         Tag (u "meta") [ (u "property", u "og:url");
                          (u "content", u "https://acme.example/home") ] [] ]
       [].

Definition salon_url : pystr := u "https://acme-salon.example".

(** An environment with the two credentials and no redirect URI. *)
Definition acme_env : pystr -> option pystr :=
  env_table [ (u "INSTAGRAM_CLIENT_ID", u "app-123");
              (u "INSTAGRAM_CLIENT_SECRET", u "s3cret") ].

Definition acme_config : InstagramConfig :=
  mkInstagramConfig (u "app-123") (u "s3cret")
    (u "https://znapsite.com/auth/instagram/callback").

Definition acme_auth_request : InstagramAuthRequest :=
  mkInstagramAuthRequest (u "code-1") None.

(** An upstream that refuses the code with an error object. *)
Definition refusing_upstream : pystr -> dict -> result pyval :=
  http_table [ (u "https://graph.facebook.com/v18.0/oauth/access_token",
                Ok (PDict [ (u "error", PStr (u "invalid code")) ])) ].

(** An upstream that grants both tokens; the second answer has no
    expires_in. *)
Definition granting_upstream : pystr -> dict -> result pyval :=
  http_table [ (u "https://graph.facebook.com/v18.0/oauth/access_token",
                Ok (PDict [ (u "access_token", PStr (u "short-1")) ]));
               (u "https://graph.instagram.com/access_token",
                Ok (PDict [ (u "access_token", PStr (u "long-1")) ])) ].

Definition acme_profile_request : InstagramProfileRequest :=
  mkInstagramProfileRequest (u "long-1") (u "1789").

(** An upstream that answers the profile with an error object. *)
Definition profile_error_upstream : pystr -> dict -> result pyval :=
  http_table [ (u "https://graph.facebook.com/v18.0/1789",
                Ok (PDict [ (u "error", PStr (u "expired token")) ])) ].

(** An upstream that answers the profile of an account without a name. *)
Definition profile_upstream : pystr -> dict -> result pyval :=
  http_table [ (u "https://graph.facebook.com/v18.0/1789",
                Ok (PDict [ (u "username", PStr (u "acme.salon"));
                            (u "name", PStr []);
                            (u "biography", PStr (u "Hair and nails"));
                            (u "followers_count", PInt 1200) ])) ].

(* ===================================================================== *)
(** ** Strings: comparison, stripping, filtering *)
(* ===================================================================== *)

Lemma str_eqb_refl (s : pystr) : str_eqb s s = true.
Proof.
  induction s as [|c s IH]; simpl; [reflexivity|].
  now rewrite N.eqb_refl, IH.
Qed.

Lemma str_eqb_eq (a b : pystr) : str_eqb a b = true <-> a = b.
Proof.
  split.
  - revert b; induction a as [|x a IH]; intros [|y b] H; simpl in H;
      try discriminate; [reflexivity|].
    apply andb_true_iff in H as [Hx Hr].
    apply N.eqb_eq in Hx. apply IH in Hr. now subst.
  - intros ->. apply str_eqb_refl.
Qed.

Lemma str_eqb_neq (a b : pystr) : str_eqb a b = false <-> a <> b.
Proof.
  split.
  - intros H E. apply str_eqb_eq in E. congruence.
  - intros H. destruct (str_eqb a b) eqn:E; [|reflexivity].
    apply str_eqb_eq in E. contradiction.
Qed.

(** [lstrip] drops a run of whitespace and nothing else. *)
Lemma lstrip_split (s : pystr) :
  exists pre, s = pre ++ lstrip s /\ Forall (fun c => isspace c = true) pre.
Proof.
  induction s as [|c s (pre & E & F)]; simpl.
  - exists []. split; [reflexivity|constructor].
  - destruct (isspace c) eqn:Hc.
    + exists (c :: pre). split; [simpl; now f_equal|now constructor].
    + exists []. split; [reflexivity|constructor].
Qed.

Lemma lstrip_head (s : pystr) (c : N) (t : pystr) :
  lstrip s = c :: t -> isspace c = false.
Proof.
  induction s as [|x s IH]; simpl; [discriminate|].
  destruct (isspace x) eqn:Hx; [exact IH|].
  intros E. injection E as -> _. exact Hx.
Qed.

Lemma lstrip_fixed (s : pystr) :
  match s with [] => True | c :: _ => isspace c = false end -> lstrip s = s.
Proof.
  destruct s as [|c s]; simpl; [reflexivity|]. now intros ->.
Qed.

Lemma lstrip_idem (s : pystr) : lstrip (lstrip s) = lstrip s.
Proof.
  apply lstrip_fixed. destruct (lstrip s) as [|c t] eqn:E; [exact I|].
  eapply lstrip_head; eassumption.
Qed.

Lemma rstrip_split (s : pystr) :
  exists post, s = rstrip s ++ post /\ Forall (fun c => isspace c = true) post.
Proof.
  unfold rstrip. destruct (lstrip_split (rev s)) as (pre & E & F).
  exists (rev pre). split.
  - rewrite <- rev_app_distr, <- E. symmetry. apply rev_involutive.
  - apply Forall_rev. exact F.
Qed.

(** [strip] cuts whitespace off both ends. *)
Lemma strip_split (s : pystr) :
  exists pre post, s = pre ++ strip s ++ post
    /\ Forall (fun c => isspace c = true) pre
    /\ Forall (fun c => isspace c = true) post.
Proof.
  unfold strip.
  destruct (lstrip_split s) as (pre & E1 & F1).
  destruct (rstrip_split (lstrip s)) as (post & E2 & F2).
  exists pre, post. split; [|split; assumption].
  rewrite <- E2. exact E1.
Qed.

Lemma strip_first (s : pystr) (c : N) (t : pystr) :
  strip s = c :: t -> isspace c = false.
Proof.
  unfold strip. intros E.
  destruct (rstrip_split (lstrip s)) as (post & E2 & _).
  rewrite E in E2. simpl in E2.
  eapply lstrip_head. exact E2.
Qed.

Lemma strip_last (s : pystr) (c : N) (t : pystr) :
  strip s = t ++ [c] -> isspace c = false.
Proof.
  unfold strip, rstrip. intros E.
  apply (f_equal (@rev N)) in E.
  rewrite rev_involutive, rev_app_distr in E. simpl in E.
  eapply lstrip_head. exact E.
Qed.

Lemma strip_trimmed (s : pystr) : trimmed (strip s).
Proof.
  split; intros c t E; [eapply strip_first|eapply strip_last]; exact E.
Qed.

Lemma trimmed_strip (s : pystr) : trimmed s -> strip s = s.
Proof.
  intros [Hf Hl]. unfold strip, rstrip.
  assert (E1 : lstrip s = s).
  { apply lstrip_fixed. destruct s as [|c t]; [exact I|]. eapply Hf. reflexivity. }
  rewrite E1.
  assert (E2 : lstrip (rev s) = rev s).
  { apply lstrip_fixed. destruct (rev s) as [|c t] eqn:E; [exact I|].
    apply (Hl c (rev t)).
    rewrite <- (rev_involutive s), E. reflexivity. }
  rewrite E2. apply rev_involutive.
Qed.

Lemma strip_idem (s : pystr) : strip (strip s) = strip s.
Proof. apply trimmed_strip, strip_trimmed. Qed.

Lemma filter_all (f : N -> bool) (s : pystr) :
  Forall (fun c => f c = true) s -> filter f s = s.
Proof.
  induction 1 as [|c s Hc _ IH]; simpl; [reflexivity|].
  now rewrite Hc, IH.
Qed.

Lemma filter_Forall (f : N -> bool) (s : pystr) :
  Forall (fun c => f c = true) (filter f s).
Proof.
  apply Forall_forall. intros c H. apply filter_In in H. tauto.
Qed.

(* ===================================================================== *)
(** ** The clean-up of the business name *)
(* ===================================================================== *)

Section Sanitizer.

Variable uni_isalnum : N -> bool.

Local Abbreviation keep := (keep_char uni_isalnum).
Local Abbreviation clean := (sanitize uni_isalnum).

Lemma sanitize_split (s : pystr) :
  exists pre post, filter keep s = pre ++ clean s ++ post
    /\ Forall (fun c => isspace c = true) pre
    /\ Forall (fun c => isspace c = true) post.
Proof. apply strip_split. Qed.

Lemma sanitize_kept (s : pystr) : Forall (fun c => keep c = true) (clean s).
Proof.
  destruct (sanitize_split s) as (pre & post & E & _).
  pose proof (filter_Forall keep s) as F. rewrite E in F.
  apply Forall_app in F as [_ F]. apply Forall_app in F as [F _]. exact F.
Qed.

Lemma sanitize_trimmed (s : pystr) : trimmed (clean s).
Proof. apply strip_trimmed. Qed.

Lemma sanitize_fixed (s : pystr) :
  Forall (fun c => keep c = true) s -> trimmed s -> clean s = s.
Proof.
  intros F T. unfold sanitize. rewrite (filter_all _ F). now apply trimmed_strip.
Qed.

(** Cleaning twice is cleaning once, for every name. *)
Lemma sanitize_twice (s : pystr) : clean (clean s) = clean s.
Proof. apply sanitize_fixed; [apply sanitize_kept|apply sanitize_trimmed]. Qed.

Lemma keep_char_iff (c : N) :
  keep c = true <->
  is_alnum uni_isalnum c = true \/ c = 95%N \/ isspace c = true \/ c = 45%N \/ c = 38%N.
Proof.
  unfold keep_char, is_word, is_alnum.
  destruct (c <? 128)%N eqn:Hlt.
  - rewrite !orb_true_iff, !N.eqb_eq. tauto.
  - apply N.ltb_ge in Hlt. rewrite !orb_true_iff, !N.eqb_eq.
    split; [tauto|]. intros [H|[H|H]]; [tauto|subst; lia|tauto].
Qed.

Lemma sanitize_cafe :
  uni_isalnum 0xE9%N = true -> uni_isalnum 0x1F389%N = false ->
  clean cafe_name = u "Joes Caf" ++ [0xE9%N].
Proof.
  intros He Hp. unfold sanitize.
  rewrite (@filter_ext_in _ keep (keep_char latin1_isalnum) cafe_name);
    [vm_compute; reflexivity|].
  intros c Hc. unfold cafe_name in Hc. cbn in Hc.
  repeat (destruct Hc as [<-|Hc]; [unfold keep_char, is_word; cbn; rewrite ?He, ?Hp; reflexivity|]).
  destruct Hc.
Qed.

(** C7, amended.  The clean-up keeps exactly the characters of the class
    [[\w\s\-&]] (alphanumeric in the sense of [str.isalnum], the underscore,
    whitespace, hyphen, ampersand), deletes every other one, and cuts the
    whitespace off both ends; with U+00E9 a letter and U+1F389 not
    alphanumeric, as the Unicode database has them, the example name comes
    out with its accented letter: Joes Caf followed by U+00E9. *)
Theorem sanitize_character_class (s : pystr) :
  uni_isalnum 0xE9%N = true -> uni_isalnum 0x1F389%N = false ->
  (forall c, keep c = true <->
     is_alnum uni_isalnum c = true \/ c = 95%N \/ isspace c = true
     \/ c = 45%N \/ c = 38%N)
  /\ (exists pre post, filter keep s = pre ++ clean s ++ post
        /\ Forall (fun c => isspace c = true) pre
        /\ Forall (fun c => isspace c = true) post)
  /\ trimmed (clean s)
  /\ clean cafe_name = u "Joes Caf" ++ [0xE9%N].
Proof.
  intros He Hp. split; [exact keep_char_iff|].
  split; [apply sanitize_split|].
  split; [apply sanitize_trimmed|].
  now apply sanitize_cafe.
Qed.

Lemma already_sanitized_kept (s : pystr) :
  already_sanitized uni_isalnum s -> Forall (fun c => keep c = true) s.
Proof.
  intros [F _]. eapply Forall_impl; [|exact F].
  intros c [H| ->]; apply keep_char_iff; [now left|].
  right; right; left. reflexivity.
Qed.

(** C8.  A name made of alphanumeric characters and inner spaces, with no
    whitespace at its ends, goes through the clean-up unchanged; and the
    clean-up applied twice is the clean-up applied once. *)
Theorem sanitize_idempotent (s : pystr) :
  already_sanitized uni_isalnum s ->
  clean s = s /\ clean (clean s) = clean s.
Proof.
  intros H. split; [|apply sanitize_twice].
  apply sanitize_fixed; [now apply already_sanitized_kept|apply H].
Qed.

End Sanitizer.

Lemma sanitize_character_class_witness :
  sanitize latin1_isalnum cafe_name = u "Joes Caf" ++ [0xE9%N]
  /\ trimmed (sanitize latin1_isalnum (u "  Ben & Jerry's  ")).
Proof.
  pose proof (@sanitize_character_class latin1_isalnum (u "  Ben & Jerry's  ")
                eq_refl eq_refl) as (_ & _ & T & E).
  split; [exact E|exact T].
Defined.

Lemma sanitize_idempotent_witness :
  sanitize latin1_isalnum (u "Acme Salon 24") = u "Acme Salon 24"
  /\ sanitize latin1_isalnum (sanitize latin1_isalnum (u "Acme Salon 24"))
     = sanitize latin1_isalnum (u "Acme Salon 24").
Proof.
  apply (@sanitize_idempotent latin1_isalnum (u "Acme Salon 24")).
  split.
  - unfold u; cbn.
    repeat (apply Forall_cons; [first [left; reflexivity | right; reflexivity]|]).
    apply Forall_nil.
  - split; intros c t E.
    + injection E as <- _. reflexivity.
    + apply (f_equal (@rev N)) in E. rewrite rev_app_distr in E.
      cbn in E. injection E as <- _. reflexivity.
Defined.

Lemma sanitize_cafe_counterexample :
  sanitize latin1_isalnum cafe_name <> u "Joes Caf"
  /\ sanitize latin1_isalnum (u "Snack_Bar") = u "Snack_Bar".
Proof. split; [vm_compute; discriminate|vm_compute; reflexivity]. Qed.

(* ===================================================================== *)
(** ** The address formatter *)
(* ===================================================================== *)

Lemma as_strs_present (vs : list pyval) :
  Forall (fun v => v = PNone \/ exists s, v = PStr s) vs ->
  as_strs (filter truthy vs) = Ok (flat_map present_component vs).
Proof.
  induction 1 as [|v vs [->|[s ->]] _ IH]; simpl.
  - reflexivity.
  - exact IH.
  - destruct s as [|c s]; simpl; [exact IH|]. now rewrite IH.
Qed.

(** C4, amended.  With components that are strings (or absent, or null),
    the formatter returns a non-empty string as it is, an address object as
    its non-empty components joined in the fixed order with a comma and a
    space, and [None] for [None], the empty string and the empty object.
    An object that has keys but none of the five components comes out as
    the empty string, not as [None]. *)
Theorem extract_address_contract (address : pyval) :
  components_are_strings address ->
  _extract_address address = Ok (address_formatter address).
Proof.
  intros H. destruct address as [| b | z | f | s | l | d].
  - reflexivity.
  - destruct b; reflexivity.
  - unfold _extract_address; simpl. destruct (Z.eqb z 0); reflexivity.
  - destruct f; reflexivity.
  - destruct s; reflexivity.
  - destruct l; reflexivity.
  - destruct d as [|kv d]; [reflexivity|].
    unfold _extract_address. cbn [truthy negb].
    unfold str_join.
    change [dict_get (kv :: d) (u "streetAddress");
            dict_get (kv :: d) (u "addressLocality");
            dict_get (kv :: d) (u "addressRegion");
            dict_get (kv :: d) (u "postalCode");
            dict_get (kv :: d) (u "addressCountry")]
      with (map (dict_get (kv :: d)) address_keys).
    rewrite (as_strs_present H). reflexivity.
Qed.

Lemma extract_address_contract_witness :
  _extract_address
    (PDict [ (u "streetAddress", PStr (u "1 Main St"));
             (u "addressLocality", PStr (u "Springfield"));
             (u "postalCode", PNone) ])
  = Ok (PStr (u "1 Main St, Springfield")).
Proof.
  apply (extract_address_contract
           (PDict [ (u "streetAddress", PStr (u "1 Main St"));
                    (u "addressLocality", PStr (u "Springfield"));
                    (u "postalCode", PNone) ])).
  simpl.
  repeat (apply Forall_cons;
          [first [left; reflexivity | right; eexists; reflexivity]|]).
  apply Forall_nil.
Defined.

(** All five components: four separators, in the order street, locality,
    region, postal code, country. *)
Lemma extract_address_five (street locality region postal country : pystr) :
  street <> [] -> locality <> [] -> region <> [] -> postal <> [] -> country <> [] ->
  _extract_address
    (PDict [ (u "streetAddress", PStr street);
             (u "addressLocality", PStr locality);
             (u "addressRegion", PStr region);
             (u "postalCode", PStr postal);
             (u "addressCountry", PStr country) ])
  = Ok (PStr (street ++ u ", " ++ locality ++ u ", " ++ region ++ u ", "
              ++ postal ++ u ", " ++ country)).
Proof.
  intros H1 H2 H3 H4 H5.
  destruct street; [easy|]. destruct locality; [easy|]. destruct region; [easy|].
  destruct postal; [easy|]. destruct country; [easy|]. reflexivity.
Qed.

(** The locality alone: the locality, with no separator. *)
Lemma extract_address_locality_only (locality : pystr) :
  locality <> [] ->
  _extract_address (PDict [ (u "addressLocality", PStr locality) ])
  = Ok (PStr locality).
Proof. intros H. destruct locality; [easy|]. reflexivity. Qed.

(** A component that is a number makes [join] fail. *)
Lemma extract_address_number_raises :
  _extract_address (PDict [ (u "postalCode", PInt 62704) ]) = Raise TypeError.
Proof. reflexivity. Qed.

Lemma extract_address_counterexample :
  _extract_address (PDict [ (u "@type", PStr (u "PostalAddress")) ]) = Ok (PStr [])
  /\ _extract_address (PDict [ (u "@type", PStr (u "PostalAddress")) ]) <> Ok PNone.
Proof. split; [reflexivity|discriminate]. Qed.

(* ===================================================================== *)
(** ** The industry classifier *)
(* ===================================================================== *)

(** C9.  The classifier looks at the lower-cased URL and at nothing else:
    two calls whose URLs agree once lower-cased return the same verdict,
    whatever the two parsed documents are. *)
Theorem detect_industry_url_only (lower : pystr -> pystr)
    (url1 url2 : pystr) (doc1 doc2 : soup) :
  lower url1 = lower url2 ->
  detect_industry_from_url lower url1 doc1 = detect_industry_from_url lower url2 doc2.
Proof.
  intros E. unfold detect_industry_from_url. rewrite E. reflexivity.
Qed.

Lemma detect_industry_url_only_witness :
  detect_industry_from_url ascii_lower (u "https://Hair-Salon.example") []
  = detect_industry_from_url ascii_lower (u "https://hair-salon.example") empty_script_page.
Proof.
  apply (@detect_industry_url_only ascii_lower
           (u "https://Hair-Salon.example") (u "https://hair-salon.example")
           [] empty_script_page).
  vm_compute. reflexivity.
Defined.

(** The verdict is the first category of the table with a hit: a URL with
    both "salon" and "studio" is a Salon. *)
Lemma detect_industry_first_category :
  detect_industry_from_url ascii_lower (u "https://salon-studio.example") []
  = PStr (u "Salon").
Proof. vm_compute. reflexivity. Qed.

Lemma detect_industry_verdict (lower : pystr -> pystr) (url : pystr) (doc : soup) :
  detect_industry_from_url lower url doc = PNone
  \/ exists c s, detect_industry_from_url lower url doc = PStr (c :: s).
Proof.
  unfold detect_industry_from_url.
  destruct (List.find _ industry_patterns) as [[industry pats]|] eqn:E; [|now left].
  right. apply find_some in E as [Hin _].
  unfold industry_patterns in Hin. simpl in Hin.
  repeat (destruct Hin as [Hin|Hin];
          [injection Hin as <- _; eexists; eexists; reflexivity|]).
  destruct Hin.
Qed.

(* ===================================================================== *)
(** ** The structured-data extractor: what it absorbs and what escapes *)
(* ===================================================================== *)

Section SchemaErrors.

Variable lower : pystr -> pystr.
Variable json_loads : pystr -> option pyval.

(** A block whose text does not decode is skipped: the loop goes on with
    the dictionary as it was. *)
Lemma malformed_json_skipped (schema_data : dict) (script : node) (text : pystr)
    (rest : list node) :
  node_string script = Some text -> json_loads text = None ->
  schema_loop lower json_loads schema_data (script :: rest)
  = schema_loop lower json_loads schema_data rest.
Proof.
  intros Hs Hj. simpl. unfold schema_try. rewrite Hs, Hj. reflexivity.
Qed.

(** A block without text stops the whole extractor with a [TypeError]. *)
Lemma missing_text_escapes (schema_data : dict) (script : node) (rest : list node) :
  node_string script = None ->
  schema_loop lower json_loads schema_data (script :: rest) = Raise TypeError.
Proof.
  intros Hs. simpl. unfold schema_try. rewrite Hs. reflexivity.
Qed.

End SchemaErrors.

(** C3, at the failing input.  On a page whose structured-data script
    element is empty, the [TypeError] of [json.loads(None)] is not among
    the exceptions the extractor catches: it leaves the extractor, and the
    endpoint answers 500 instead of a record. *)
Theorem empty_script_escapes (lower : pystr -> pystr)
    (uni_isalnum uni_isdecimal : N -> bool)
    (json_loads : pystr -> option pyval) (coerce_str : pyval -> option pystr) :
  extract_from_schema_org lower json_loads empty_script_page = Raise TypeError
  /\ extract_metadata ascii_lower uni_isalnum uni_isdecimal json_loads coerce_str
       (serve empty_script_page) (u "https://acme.example")
     = Raise (HTTPException 500).
Proof. split; reflexivity. Qed.

(* ===================================================================== *)
(** ** The Instagram shortcut of the endpoint *)
(* ===================================================================== *)

(** C10, amended.  A request whose URL passes the scheme check and, once
    lower-cased, contains "instagram.com" anywhere is answered with the
    fixed record, whatever the fetch would have returned: no page is
    fetched and no extractor runs. *)
Theorem instagram_bypass (lower : pystr -> pystr)
    (uni_isalnum uni_isdecimal : N -> bool)
    (json_loads : pystr -> option pyval) (coerce_str : pyval -> option pystr)
    (fetch : pystr -> result soup) (url : pystr) :
  startswith (u "http://") url || startswith (u "https://") url = true ->
  contains (u "instagram.com") (lower url) = true ->
  extract_metadata lower uni_isalnum uni_isdecimal json_loads coerce_str fetch url
  = Ok {| businessName := None;
          description := None;
          industry := Some (u "Social Media");
          address := None;
          website := Some url;
          logo := None;
          rawMetadata := Some [ (u "source", PStr (u "instagram"));
                                (u "oauthAvailable", PBool true) ];
          requiresAuth := None;
          platform := None;
          authUrl := None |}.
Proof.
  intros Hs Hi. unfold extract_metadata. rewrite Hs, Hi. reflexivity.
Qed.

(** The host is example.com; the query mentions Instagram in capitals. *)
Lemma instagram_bypass_witness :
  extract_metadata ascii_lower latin1_isalnum latin1_isdecimal (loads_table [])
    strict_str (fun _ => Raise OtherError)
    (u "https://example.com/share?to=Instagram.COM/acme")
  = Ok (instagram_record (u "https://example.com/share?to=Instagram.COM/acme")).
Proof.
  apply (@instagram_bypass ascii_lower latin1_isalnum latin1_isdecimal
           (loads_table []) strict_str (fun _ => Raise OtherError)
           (u "https://example.com/share?to=Instagram.COM/acme"));
    vm_compute; reflexivity.
Defined.

Lemma instagram_without_scheme :
  contains (u "instagram.com") (ascii_lower (u "instagram.com/acme")) = true
  /\ extract_metadata ascii_lower latin1_isalnum latin1_isdecimal (loads_table [])
       strict_str (serve []) (u "instagram.com/acme")
     = Raise (HTTPException 400).
Proof. split; vm_compute; reflexivity. Qed.

(* ===================================================================== *)
(** ** Dictionaries *)
(* ===================================================================== *)

Lemma dict_get_set (d : dict) (k k' : pystr) (v : pyval) :
  dict_get (dict_set d k v) k' = if str_eqb k k' then v else dict_get d k'.
Proof.
  unfold dict_get. induction d as [|[k0 v0] d IH]; simpl.
  - reflexivity.
  - destruct (str_eqb k0 k) eqn:E0; simpl.
    + apply str_eqb_eq in E0. subst k0.
      destruct (str_eqb k k'); reflexivity.
    + rewrite IH. destruct (str_eqb k0 k') eqn:E1; [|reflexivity].
      apply str_eqb_eq in E1. subst k'. now rewrite (proj2 (str_eqb_neq k k0))
        by (intros ->; rewrite str_eqb_refl in E0; discriminate).
Qed.

Lemma dict_get_set_same (d : dict) (k : pystr) (v : pyval) :
  dict_get (dict_set d k v) k = v.
Proof. now rewrite dict_get_set, str_eqb_refl. Qed.

Lemma dict_set_set (d : dict) (k : pystr) (v w : pyval) :
  dict_set (dict_set d k v) k w = dict_set d k w.
Proof.
  induction d as [|[k0 v0] d IH]; simpl.
  - now rewrite str_eqb_refl.
  - destruct (str_eqb k0 k) eqn:E; simpl; rewrite E; [reflexivity|now rewrite IH].
Qed.

(** The keys of the dictionary an item is projected to. *)
Lemma schema_item_keys (lower : pystr -> pystr) (item : pyval) (r : dict) :
  _extract_schema_item lower item = Ok r ->
  map fst r = [] \/ map fst r = business_keys \/ map fst r = person_keys.
Proof.
  unfold _extract_schema_item.
  destruct item as [| | | | |  | d]; try discriminate.
  destruct (dict_get_default d (u "@type") (PStr [])) as [| | | | t | |];
    try discriminate.
  destruct (_ || _).
  - destruct (_extract_address _); simpl; [|discriminate].
    intros E. injection E as E. subst r. right; left. reflexivity.
  - destruct (contains _ _); intros E; injection E as E; subst r.
    + right; right. reflexivity.
    + left. reflexivity.
Qed.

(** [update] with such a dictionary: the keys it has are overwritten, the
    others are left alone. *)
Lemma dict_update_get (d r : dict) (k : pystr) :
  map fst r = [] \/ map fst r = business_keys \/ map fst r = person_keys ->
  dict_get (dict_update d r) k
  = if dict_mem r k then dict_get r k else dict_get d k.
Proof.
  intros [H|[H|H]].
  - destruct r; [reflexivity|discriminate].
  - destruct r as [|[k1 v1] [|[k2 v2] [|[k3 v3] [|[k4 v4] [|]]]]]; try discriminate.
    injection H as -> -> -> ->.
    unfold dict_update. simpl fold_left. rewrite !dict_get_set.
    unfold dict_get at 2. cbn [dict_mem dict_get_default].
    destruct (str_eqb (u "businessName") k) eqn:E1;
    destruct (str_eqb (u "description") k) eqn:E2;
    destruct (str_eqb (u "address") k) eqn:E3;
    destruct (str_eqb (u "industry") k) eqn:E4; cbn [orb]; try reflexivity;
    exfalso;
    match goal with
    | E : str_eqb _ k = true |- _ => apply str_eqb_eq in E; subst k
    end;
    match goal with
    | E : str_eqb _ _ = true |- _ => vm_compute in E; discriminate E
    end.
  - destruct r as [|[k1 v1] [|[k2 v2] [|[k3 v3] [|]]]]; try discriminate.
    injection H as -> -> ->.
    unfold dict_update. simpl fold_left. rewrite !dict_get_set.
    unfold dict_get at 2. cbn [dict_mem dict_get_default].
    destruct (str_eqb (u "businessName") k) eqn:E1;
    destruct (str_eqb (u "description") k) eqn:E2;
    destruct (str_eqb (u "industry") k) eqn:E4; cbn [orb]; try reflexivity;
    exfalso;
    match goal with
    | E : str_eqb _ k = true |- _ => apply str_eqb_eq in E; subst k
    end;
    match goal with
    | E : str_eqb _ _ = true |- _ => vm_compute in E; discriminate E
    end.
Qed.

Lemma update_each_snoc (lower : pystr -> pystr) (items : list pyval) :
  forall (schema_data schema_data' : dict) (item : pyval) (r : dict),
  update_each lower schema_data items = (schema_data', None) ->
  _extract_schema_item lower item = Ok r ->
  update_each lower schema_data (items ++ [item]) = (dict_update schema_data' r, None).
Proof.
  induction items as [|i items IH]; intros sd sd' item r H Hr; simpl in *.
  - injection H as <-. now rewrite Hr.
  - destruct (_extract_schema_item lower i); [|discriminate].
    now apply IH.
Qed.

(** C5, amended.  When a further item is classified after others, every
    field it emits (the four of a business-like item, the three of a
    person-like one) takes the item's value, [None] included; the fields it
    does not emit keep the value the earlier items left. *)
Theorem later_item_overwrites (lower : pystr -> pystr)
    (schema_data schema_data' : dict) (items : list pyval) (item : pyval) (r : dict) :
  update_each lower schema_data items = (schema_data', None) ->
  _extract_schema_item lower item = Ok r ->
  update_each lower schema_data (items ++ [item]) = (dict_update schema_data' r, None)
  /\ (map fst r = [] \/ map fst r = business_keys \/ map fst r = person_keys)
  /\ forall k, dict_get (dict_update schema_data' r) k
               = if dict_mem r k then dict_get r k else dict_get schema_data' k.
Proof.
  intros H Hr. split; [now apply update_each_snoc|].
  pose proof (schema_item_keys _ _ Hr) as K.
  split; [exact K|]. intros k. now apply dict_update_get.
Qed.

Lemma later_item_overwrites_witness :
  update_each ascii_lower [] ([first_org] ++ [second_org])
  = ([ (u "businessName", PNone); (u "description", PStr (u "Second"));
       (u "address", PNone); (u "industry", PNone) ], None).
Proof.
  apply (@later_item_overwrites ascii_lower []
           [ (u "businessName", PStr (u "Acme")); (u "description", PStr (u "First"));
             (u "address", PNone); (u "industry", PNone) ]
           [first_org] second_org
           [ (u "businessName", PNone); (u "description", PStr (u "Second"));
             (u "address", PNone); (u "industry", PNone) ]).
  - vm_compute. reflexivity.
  - vm_compute. reflexivity.
Defined.

Lemma null_overwrites_counterexample :
  _extract_schema_item ascii_lower first_org
  = Ok [ (u "businessName", PStr (u "Acme")); (u "description", PStr (u "First"));
         (u "address", PNone); (u "industry", PNone) ]
  /\ _extract_schema_item ascii_lower second_org
     = Ok [ (u "businessName", PNone); (u "description", PStr (u "Second"));
            (u "address", PNone); (u "industry", PNone) ]
  /\ exists schema_data,
       extract_from_schema_org ascii_lower two_orgs_loads two_orgs_page = Ok schema_data
       /\ dict_get schema_data (u "businessName") = PNone
       /\ dict_get schema_data (u "businessName") <> PStr (u "Acme").
Proof.
  split; [vm_compute; reflexivity|]. split; [vm_compute; reflexivity|].
  eexists. split; [vm_compute; reflexivity|].
  split; [vm_compute; reflexivity|vm_compute; discriminate].
Qed.

(* ===================================================================== *)
(** ** The merge *)
(* ===================================================================== *)

Lemma por_truthy (a b : pyval) : truthy a = true -> por a b = a.
Proof. unfold por. now intros ->. Qed.

Lemma por_falsy (a b : pyval) : truthy a = false -> por a b = b.
Proof. unfold por. now intros ->. Qed.

Section Merge.

Variable lower : pystr -> pystr.
Variable uni_isalnum : N -> bool.
Variable uni_isdecimal : N -> bool.
Variable json_loads : pystr -> option pyval.
Variable coerce_str : pyval -> option pystr.

Lemma merged_of_ok (doc : soup) (url : pystr) (schema_data : dict) :
  extract_from_schema_org lower json_loads doc = Ok schema_data ->
  merged_of lower uni_isdecimal json_loads doc url
  = Ok (merge schema_data (extract_from_open_graph lower doc)
          (extract_from_twitter_card lower doc) (extract_from_html doc url)
          (detect_industry_from_url lower url doc)
          (extract_address_from_text uni_isdecimal doc) url).
Proof. intros E. unfold merged_of. rewrite E. reflexivity. Qed.

(** The name of the merge is the first truthy one in the order structured
    data, Open Graph, Twitter card, and the HTML value when none is. *)
Lemma merge_businessName_chain (sd og tw html : dict) (di da : pyval) (url : pystr) :
  dict_get (merge sd og tw html di da url) (u "businessName")
  = if truthy (dict_get sd (u "businessName")) then dict_get sd (u "businessName")
    else if truthy (dict_get og (u "businessName")) then dict_get og (u "businessName")
    else if truthy (dict_get tw (u "businessName")) then dict_get tw (u "businessName")
    else dict_get html (u "businessName").
Proof.
  change (dict_get (merge sd og tw html di da url) (u "businessName"))
    with (por (por (por (dict_get sd (u "businessName")) (dict_get og (u "businessName")))
                   (dict_get tw (u "businessName")))
              (dict_get html (u "businessName"))).
  destruct (truthy (dict_get sd (u "businessName"))) eqn:E1.
  { now rewrite (@por_truthy _ _ E1), (@por_truthy _ _ E1), (@por_truthy _ _ E1). }
  rewrite (@por_falsy _ _ E1).
  destruct (truthy (dict_get og (u "businessName"))) eqn:E2.
  { now rewrite (@por_truthy _ _ E2), (@por_truthy _ _ E2). }
  rewrite (@por_falsy _ _ E2). reflexivity.
Qed.

(** C1, amended.  When the structured-data extractor holds a name that is
    truthy (neither null nor empty), the merged name, before the clean-up,
    is that name, whatever Open Graph, the Twitter card and the HTML hold. *)
Theorem merge_priority_businessName (doc : soup) (url : pystr) (schema_data : dict) :
  extract_from_schema_org lower json_loads doc = Ok schema_data ->
  truthy (dict_get schema_data (u "businessName")) = true ->
  exists merged_data,
    merged_of lower uni_isdecimal json_loads doc url = Ok merged_data
    /\ dict_get merged_data (u "businessName")
       = dict_get schema_data (u "businessName").
Proof.
  intros E T. rewrite (@merged_of_ok doc url schema_data E).
  eexists. split; [reflexivity|].
  rewrite merge_businessName_chain, T. reflexivity.
Qed.

End Merge.

Lemma merge_priority_businessName_witness :
  exists merged_data,
    merged_of ascii_lower latin1_isdecimal acme_salon_loads acme_salon_page
      (u "https://acmesalon.com") = Ok merged_data
    /\ dict_get merged_data (u "businessName") = PStr (u "Acme Salon").
Proof.
  apply (@merge_priority_businessName ascii_lower latin1_isdecimal acme_salon_loads
           acme_salon_page (u "https://acmesalon.com")
           [ (u "businessName", PStr (u "Acme Salon")); (u "description", PNone);
             (u "address", PStr (u "1 Main St, Springfield")); (u "industry", PNone) ]).
  - vm_compute. reflexivity.
  - vm_compute. reflexivity.
Defined.

(** The structured data supplies a name that is not null, the empty string,
    and the Open Graph title wins. *)
Lemma empty_name_counterexample :
  exists schema_data merged_data,
    extract_from_schema_org ascii_lower nameless_person_loads nameless_person_page
      = Ok schema_data
    /\ dict_get schema_data (u "businessName") = PStr []
    /\ dict_get (extract_from_open_graph ascii_lower nameless_person_page)
         (u "businessName") = PStr (u "Acme Studio")
    /\ merged_of ascii_lower latin1_isdecimal nameless_person_loads
         nameless_person_page (u "https://acme.example") = Ok merged_data
    /\ dict_get merged_data (u "businessName") = PStr (u "Acme Studio")
    /\ dict_get merged_data (u "businessName")
       <> dict_get schema_data (u "businessName").
Proof.
  eexists. eexists.
  split; [vm_compute; reflexivity|].
  split; [vm_compute; reflexivity|].
  split; [vm_compute; reflexivity|].
  split; [vm_compute; reflexivity|].
  split; [vm_compute; reflexivity|vm_compute; discriminate].
Qed.

(* ===================================================================== *)
(** ** The address sniffer never returns an empty match *)
(* ===================================================================== *)

Lemma star_c_shrinks (p : N -> bool) (k : pystr -> option pystr) :
  shrinking k -> shrinking (fun s => star_c p s k).
Proof.
  intros K s. induction s as [|c s IH]; intros x; simpl.
  - apply K.
  - destruct (p c).
    + destruct (star_c p s k) as [y|] eqn:E; simpl.
      * intros H. injection H as <-. specialize (IH y eq_refl). lia.
      * apply K.
    + apply K.
Qed.

Lemma rmatch_shrinks (r : regex) :
  forall k, shrinking k -> shrinking (fun s => rmatch r s k).
Proof.
  induction r as [p | | a IHa b IHb | a IHa b IHb | p]; intros k K s x; simpl.
  - destruct s as [|c s]; [discriminate|].
    destruct (p c); [|discriminate].
    intros H. apply K in H. simpl. lia.
  - apply K.
  - apply (IHa (fun s' => rmatch b s' k)). now apply IHb.
  - destruct (rmatch a s k) as [y|] eqn:E; simpl.
    + intros H. injection H as <-. now apply (IHa k K s).
    + now apply (IHb k K s).
  - now apply star_c_shrinks.
Qed.

(** A pattern that begins with [[class]+] consumes at least one character. *)
Lemma plus_consumes (p : N -> bool) (rs : list regex) (s rest : pystr) :
  match_at (seqs (Plus p :: rs)) s = Some rest ->
  List.length rest < List.length s.
Proof.
  unfold match_at. simpl.
  destruct s as [|c s]; [discriminate|].
  destruct (p c); [|discriminate].
  intros H.
  assert (K : shrinking (fun s' => rmatch (seqs rs) s' Some)).
  { apply rmatch_shrinks. intros t x E. injection E as <-. lia. }
  apply (star_c_shrinks p K) in H. simpl. lia.
Qed.

Lemma findall_first_nonempty (r : regex) :
  (forall s rest, match_at r s = Some rest -> List.length rest < List.length s) ->
  forall fuel s m ms, findall_from fuel r s = m :: ms -> m <> [].
Proof.
  intros C fuel. induction fuel as [|fuel IH]; intros s m ms; simpl; [discriminate|].
  destruct (match_at r s) as [rest|] eqn:E.
  - apply C in E.
    destruct (firstn (List.length s - List.length rest) s) as [|c t] eqn:F.
    + exfalso.
      assert (D : exists n, List.length s - List.length rest = S n)
        by (exists (List.length s - List.length rest - 1); lia).
      destruct D as [n D]. rewrite D in F.
      destruct s as [|c s]; [simpl in E; lia|discriminate F].
    + intros H. injection H as <- _. discriminate.
  - destruct s as [|c s]; [discriminate|]. apply IH.
Qed.

(** The sniffer answers [None] or a non-empty string. *)
Lemma extract_address_from_text_verdict (uni_isdecimal : N -> bool) (doc : soup) :
  extract_address_from_text uni_isdecimal doc = PNone
  \/ exists c s, extract_address_from_text uni_isdecimal doc = PStr (c :: s).
Proof.
  unfold extract_address_from_text.
  destruct (find doc (u "footer") any_attrs) as [footer|]; [|now left].
  destruct (findall _ _) as [|m ms] eqn:E; [now left|].
  right. unfold findall in E.
  apply findall_first_nonempty in E.
  - destruct m as [|c m]; [contradiction|]. now exists c, m.
  - intros s rest. unfold address_pattern. apply plus_consumes.
Qed.

(* ===================================================================== *)
(** ** The preview extractors only hold non-empty strings *)
(* ===================================================================== *)

Lemma dict_set_all_truthy (d : dict) (k : pystr) (v : pyval) :
  all_truthy d -> truthy v = true -> all_truthy (dict_set d k v).
Proof.
  intros A T. induction A as [|[k0 v0] d H0 A IH]; simpl.
  - repeat constructor. exact T.
  - destruct (str_eqb k0 k); constructor; assumption.
Qed.

Lemma dict_get_all_truthy (d : dict) (k : pystr) :
  all_truthy d -> none_or_truthy (dict_get d k).
Proof.
  unfold dict_get. intros A. induction A as [|[k0 v0] d H0 A IH]; simpl.
  - now left.
  - destruct (str_eqb k0 k); [now right|exact IH].
Qed.

Lemma meta_step_all_truthy (lower : pystr -> pystr)
    (meta_mapping : list (pystr * pystr)) (key : pystr) (data : dict) (meta : node) :
  all_truthy data -> all_truthy (meta_step lower meta_mapping key data meta).
Proof.
  intros A. unfold meta_step. destruct meta as [t|nm attrs cs]; [exact A|].
  destruct (attr_get meta_mapping _) as [field|]; [|exact A].
  destruct (attr_get attrs (u "content")) as [content|]; [|exact A].
  destruct (truthy (PStr content)) eqn:T; simpl; [|exact A].
  destruct (negb _); [|exact A].
  now apply dict_set_all_truthy.
Qed.

Lemma meta_loop_all_truthy (lower : pystr -> pystr)
    (meta_mapping : list (pystr * pystr)) (key : pystr) (metas : list node) :
  forall data, all_truthy data ->
  all_truthy (fold_left (meta_step lower meta_mapping key) metas data).
Proof.
  induction metas as [|meta metas IH]; intros data A; simpl; [exact A|].
  apply IH. now apply meta_step_all_truthy.
Qed.

Lemma open_graph_all_truthy (lower : pystr -> pystr) (doc : soup) :
  all_truthy (extract_from_open_graph lower doc).
Proof. apply meta_loop_all_truthy. constructor. Qed.

Lemma twitter_card_all_truthy (lower : pystr -> pystr) (doc : soup) :
  all_truthy (extract_from_twitter_card lower doc).
Proof. apply meta_loop_all_truthy. constructor. Qed.

Lemma por_none_or_truthy (a b : pyval) : none_or_truthy b -> none_or_truthy (por a b).
Proof.
  intros G. unfold por. destruct (truthy a) eqn:T; [now right|exact G].
Qed.

(** The HTML extractor holds a string or nothing as the name. *)
Lemma extract_from_html_name (doc : soup) (url : pystr) :
  dict_get (extract_from_html doc url) (u "businessName") = PNone
  \/ exists s, dict_get (extract_from_html doc url) (u "businessName") = PStr s.
Proof.
  unfold extract_from_html.
  destruct (find doc (u "h1") any_attrs) as [h1|].
  { right. rewrite dict_get_set_same. eauto. }
  destruct (find doc (u "meta") _) as [[t|nm attrs cs]|];
    destruct (find doc (u "title") any_attrs) as [title|];
    rewrite ?dict_get_set; cbn; eauto.
Qed.

(* ===================================================================== *)
(** ** The engine and the endpoint *)
(* ===================================================================== *)

Section Engine.

Variable lower : pystr -> pystr.
Variable uni_isalnum : N -> bool.
Variable uni_isdecimal : N -> bool.
Variable json_loads : pystr -> option pyval.
Variable coerce_str : pyval -> option pystr.

Local Abbreviation the_engine :=
  (engine lower uni_isalnum uni_isdecimal json_loads coerce_str).
Local Abbreviation the_merge doc url schema_data :=
  (merge schema_data (extract_from_open_graph lower doc)
     (extract_from_twitter_card lower doc) (extract_from_html doc url)
     (detect_industry_from_url lower url doc)
     (extract_address_from_text uni_isdecimal doc) url).

Lemma engine_ok (doc : soup) (url : pystr) (schema_data : dict) :
  extract_from_schema_org lower json_loads doc = Ok schema_data ->
  the_engine doc url
  = (merged_data <- clean_business_name uni_isalnum (the_merge doc url schema_data) ;;
     BusinessMetadata_of coerce_str merged_data).
Proof.
  intros E. unfold engine. now rewrite (@merged_of_ok lower uni_isdecimal json_loads doc url _ E).
Qed.

Lemma engine_inv (doc : soup) (url : pystr) (r : BusinessMetadata) :
  the_engine doc url = Ok r ->
  exists schema_data merged_data,
    extract_from_schema_org lower json_loads doc = Ok schema_data
    /\ clean_business_name uni_isalnum (the_merge doc url schema_data) = Ok merged_data
    /\ BusinessMetadata_of coerce_str merged_data = Ok r.
Proof.
  intros H.
  destruct (extract_from_schema_org lower json_loads doc) as [sd|e] eqn:E.
  - rewrite (engine_ok _ _ E) in H.
    destruct (clean_business_name _ _) as [m|e] eqn:C; [|discriminate].
    exists sd, m. auto.
  - unfold engine, merged_of in H. rewrite E in H. discriminate.
Qed.

(** What the clean-up does to a dictionary. *)
Lemma clean_business_name_inv (merged_data merged_data' : dict) :
  clean_business_name uni_isalnum merged_data = Ok merged_data' ->
  (truthy (dict_get merged_data (u "businessName")) = false
   /\ merged_data' = merged_data)
  \/ (exists s, dict_get merged_data (u "businessName") = PStr s
      /\ merged_data' = dict_set merged_data (u "businessName")
                          (PStr (sanitize uni_isalnum s))).
Proof.
  unfold clean_business_name.
  destruct (truthy (dict_get merged_data (u "businessName"))) eqn:T.
  - destruct (dict_get merged_data (u "businessName")); try discriminate.
    intros H. injection H as <-. right. eauto.
  - intros H. injection H as <-. now left.
Qed.

(** The clean-up of a cleaned dictionary changes nothing. *)
Lemma clean_business_name_idempotent (merged_data merged_data' : dict) :
  clean_business_name uni_isalnum merged_data = Ok merged_data' ->
  clean_business_name uni_isalnum merged_data' = Ok merged_data'.
Proof.
  intros C. destruct (@clean_business_name_inv _ _ C) as [[_ ->]|(s & _ & ->)];
    [exact C|].
  unfold clean_business_name. rewrite dict_get_set_same.
  destruct (sanitize uni_isalnum s) as [|c t] eqn:E; [reflexivity|].
  cbn [truthy]. rewrite <- E, sanitize_twice, dict_set_set. reflexivity.
Qed.

(** The fields of the response are the validated values of the keys. *)
Lemma BusinessMetadata_of_inv (merged_data : dict) (r : BusinessMetadata) :
  BusinessMetadata_of coerce_str merged_data = Ok r ->
  validate_str coerce_str (dict_get merged_data (u "businessName")) = Ok (businessName r)
  /\ validate_str coerce_str (dict_get merged_data (u "description")) = Ok (description r)
  /\ validate_str coerce_str (dict_get merged_data (u "industry")) = Ok (industry r)
  /\ validate_str coerce_str (dict_get merged_data (u "address")) = Ok (address r)
  /\ validate_str coerce_str (dict_get merged_data (u "website")) = Ok (website r)
  /\ validate_str coerce_str (dict_get merged_data (u "logo")) = Ok (logo r).
Proof.
  unfold BusinessMetadata_of.
  destruct (validate_str coerce_str (dict_get merged_data (u "businessName"))); [|discriminate].
  destruct (validate_str coerce_str (dict_get merged_data (u "description"))); [|discriminate].
  destruct (validate_str coerce_str (dict_get merged_data (u "industry"))); [|discriminate].
  destruct (validate_str coerce_str (dict_get merged_data (u "address"))); [|discriminate].
  destruct (validate_str coerce_str (dict_get merged_data (u "website"))); [|discriminate].
  destruct (validate_str coerce_str (dict_get merged_data (u "logo"))); [|discriminate].
  destruct (validate_dict (dict_get merged_data (u "rawMetadata"))); [|discriminate].
  simpl. intros H. injection H as <-. simpl. repeat split; reflexivity.
Qed.

Section Validated.

(** Whatever pydantic turns into a string, it is not the empty one. *)
Hypothesis coerce_nonempty : forall v s, coerce_str v = Some s -> s <> [].

Lemma validate_str_nonempty (v : pyval) (o : option pystr) :
  none_or_truthy v -> validate_str coerce_str v = Ok o -> o <> Some [].
Proof.
  intros [->|T]; simpl.
  - intros H. injection H as <-. discriminate.
  - destruct v; simpl in *; try discriminate;
      try (destruct (coerce_str _) as [s|] eqn:C; [|discriminate];
           intros H; injection H as <-; intros E; injection E as ->;
           now apply coerce_nonempty in C).
    destruct s; [discriminate|]. intros H. injection H as <-. discriminate.
Qed.

Lemma validate_str_truthy (v : pyval) (o : option pystr) :
  truthy v = true -> validate_str coerce_str v = Ok o ->
  exists s, o = Some s /\ s <> [].
Proof.
  intros T H. pose proof (@validate_str_nonempty v o (or_intror T) H) as N.
  destruct o as [s|].
  - exists s. split; [reflexivity|]. intros ->. now apply N.
  - destruct v; simpl in *; try discriminate;
      destruct (coerce_str _); discriminate.
Qed.

Lemma trimmed_nil : trimmed [].
Proof.
  split; intros c t E; [discriminate|].
  now apply app_cons_not_nil in E.
Qed.

(** The name of a returned record is one the clean-up produced, or empty. *)
Lemma engine_name_clean (doc : soup) (url : pystr) (r : BusinessMetadata) (s : pystr) :
  the_engine doc url = Ok r -> businessName r = Some s ->
  Forall (fun c => keep_char uni_isalnum c = true) s /\ trimmed s.
Proof.
  intros H Hs. apply engine_inv in H as (sd & m & _ & C & B).
  apply BusinessMetadata_of_inv in B as (B & _).
  apply clean_business_name_inv in C as [[T ->]|(s0 & E & ->)].
  - assert (V : dict_get (the_merge doc url sd) (u "businessName") = PNone
                \/ dict_get (the_merge doc url sd) (u "businessName") = PStr []).
    { revert T. rewrite merge_businessName_chain.
      destruct (truthy (dict_get sd (u "businessName"))) eqn:T1; [congruence|].
      destruct (truthy (dict_get (extract_from_open_graph lower doc) (u "businessName")))
        eqn:T2; [congruence|].
      destruct (truthy (dict_get (extract_from_twitter_card lower doc) (u "businessName")))
        eqn:T3; [congruence|].
      destruct (extract_from_html_name doc url) as [->|[s' ->]]; [now left|].
      destruct s'; [now right|discriminate]. }
    destruct V as [V|V]; rewrite V in B; simpl in B; congruence || idtac.
    assert (s = []) by congruence. subst s. split; [constructor|apply trimmed_nil].
  - rewrite dict_get_set_same in B. simpl in B.
    assert (s = sanitize uni_isalnum s0) by congruence. subst s.
    split; [apply sanitize_kept|apply sanitize_trimmed].
Qed.

(** The clean-up leaves the other keys alone. *)
Lemma clean_business_name_other (merged_data merged_data' : dict) (k : pystr) :
  clean_business_name uni_isalnum merged_data = Ok merged_data' ->
  str_eqb (u "businessName") k = false ->
  dict_get merged_data' k = dict_get merged_data k.
Proof.
  intros C K. apply clean_business_name_inv in C as [[_ ->]|(s & _ & ->)];
    [reflexivity|]. now rewrite dict_get_set, K.
Qed.

Lemma engine_fields_nonempty (doc : soup) (url : pystr) (r : BusinessMetadata) :
  url <> [] -> the_engine doc url = Ok r ->
  industry r <> Some [] /\ address r <> Some []
  /\ (exists w, website r = Some w /\ w <> []) /\ logo r <> Some [].
Proof.
  intros U H. apply engine_inv in H as (sd & m & _ & C & B).
  apply BusinessMetadata_of_inv in B as (_ & _ & Bi & Ba & Bw & Bl).
  rewrite (@clean_business_name_other _ _ (u "industry") C eq_refl) in Bi.
  rewrite (@clean_business_name_other _ _ (u "address") C eq_refl) in Ba.
  rewrite (@clean_business_name_other _ _ (u "website") C eq_refl) in Bw.
  rewrite (@clean_business_name_other _ _ (u "logo") C eq_refl) in Bl.
  repeat split.
  - apply (@validate_str_nonempty (dict_get (the_merge doc url sd) (u "industry")) _);
      [|exact Bi].
    apply por_none_or_truthy.
    destruct (detect_industry_verdict lower url doc) as [->|(c & s & ->)];
      [now left|now right].
  - apply (@validate_str_nonempty (dict_get (the_merge doc url sd) (u "address")) _);
      [|exact Ba].
    apply por_none_or_truthy.
    destruct (extract_address_from_text_verdict uni_isdecimal doc) as [->|(c & s & ->)];
      [now left|now right].
  - apply (@validate_str_truthy (dict_get (the_merge doc url sd) (u "website")) _);
      [|exact Bw].
    change (dict_get (the_merge doc url sd) (u "website"))
      with (por (dict_get (extract_from_open_graph lower doc) (u "website")) (PStr url)).
    unfold por.
    destruct (truthy (dict_get (extract_from_open_graph lower doc) (u "website"))) eqn:T;
      [exact T|]. destruct url; [contradiction|reflexivity].
  - apply (@validate_str_nonempty (dict_get (the_merge doc url sd) (u "logo")) _);
      [|exact Bl].
    apply por_none_or_truthy, dict_get_all_truthy, twitter_card_all_truthy.
Qed.

(** C2, amended.  Every field of a returned record is null or a string.
    Industry, address, website and logo are never the empty string, and the
    website is never null.  The business name is null or a string the
    clean-up produced (only kept characters, no whitespace at either end),
    which can be the empty string. *)
Theorem record_fields (fetch : pystr -> result soup) (url : pystr)
    (r : BusinessMetadata) :
  extract_metadata lower uni_isalnum uni_isdecimal json_loads coerce_str fetch url
    = Ok r ->
  (forall s, businessName r = Some s ->
     Forall (fun c => keep_char uni_isalnum c = true) s /\ trimmed s)
  /\ industry r <> Some [] /\ address r <> Some []
  /\ (exists w, website r = Some w /\ w <> []) /\ logo r <> Some [].
Proof.
  unfold extract_metadata.
  destruct (negb _) eqn:S; [discriminate|].
  assert (U : url <> []) by (intros ->; discriminate S).
  destruct (contains _ _).
  - intros H. injection H as <-. simpl.
    split; [discriminate|]. split; [discriminate|]. split; [discriminate|].
    split; [eauto|discriminate].
  - destruct (fetch url) as [doc|e]; simpl; [|discriminate].
    destruct (engine _ _ _ _ _ doc url) as [r0|e] eqn:E; [|discriminate].
    intros H. injection H as <-. split.
    + intros s Hs. eapply engine_name_clean; eassumption.
    + eapply engine_fields_nonempty; eassumption.
Qed.

End Validated.

End Engine.

Lemma record_fields_witness :
  exists r,
    extract_metadata ascii_lower latin1_isalnum latin1_isdecimal acme_salon_loads
      strict_str (serve acme_salon_page) (u "https://acmesalon.com") = Ok r
    /\ (forall s, businessName r = Some s ->
          Forall (fun c => keep_char latin1_isalnum c = true) s /\ trimmed s)
    /\ industry r <> Some [] /\ address r <> Some []
    /\ (exists w, website r = Some w /\ w <> []) /\ logo r <> Some [].
Proof.
  eexists. split; [vm_compute; reflexivity|].
  apply (@record_fields ascii_lower latin1_isalnum latin1_isdecimal acme_salon_loads
           strict_str) with (fetch := serve acme_salon_page)
                            (url := u "https://acmesalon.com").
  - intros v s H. discriminate H.
  - vm_compute. reflexivity.
Defined.

(** A page whose only name is an emoji: the record carries the empty string
    as its business name. *)
Lemma empty_business_name_counterexample :
  exists r,
    extract_metadata ascii_lower latin1_isalnum latin1_isdecimal (loads_table [])
      strict_str (serve emoji_page) (u "https://acme.example") = Ok r
    /\ businessName r = Some [].
Proof. eexists. split; vm_compute; reflexivity. Qed.

(* ===================================================================== *)
(** ** Scenario B: a page with a title and nothing else *)
(* ===================================================================== *)

Section ScenarioB.

Variable lower : pystr -> pystr.
Variable uni_isalnum : N -> bool.
Variable uni_isdecimal : N -> bool.
Variable json_loads : pystr -> option pyval.
Variable coerce_str : pyval -> option pystr.

Lemma clean_business_name_str (merged_data : dict) (s : pystr) :
  dict_get merged_data (u "businessName") = PStr s -> s <> [] ->
  clean_business_name uni_isalnum merged_data
  = Ok (dict_set merged_data (u "businessName") (PStr (sanitize uni_isalnum s))).
Proof.
  intros E N. unfold clean_business_name. rewrite E.
  destruct s; [contradiction|reflexivity].
Qed.

Lemma sanitize_pizza :
  uni_isalnum 0x2014%N = false ->
  sanitize uni_isalnum pizza_title = u "Joes Pizza  Home".
Proof.
  intros Hd. unfold sanitize.
  rewrite (@filter_ext_in _ (keep_char uni_isalnum) (keep_char latin1_isalnum) pizza_title);
    [vm_compute; reflexivity|].
  intros c Hc. unfold pizza_title in Hc. cbn in Hc.
  repeat (destruct Hc as [<-|Hc];
          [unfold keep_char, is_word; cbn; rewrite ?Hd; reflexivity|]).
  destruct Hc.
Qed.

Lemma pizza_industry (doc : soup) :
  lower pizza_url = pizza_url ->
  detect_industry_from_url lower pizza_url doc = PNone.
Proof.
  intros L. unfold detect_industry_from_url. rewrite L. vm_compute. reflexivity.
Qed.

(** C6, amended.  On a page with no structured-data block, no preview tag
    and no first-level heading, whose title is Joe's Pizza, em dash, Home,
    fetched from https://joespizza.example, the engine returns a record
    whose name is "Joes Pizza  Home" (two spaces where the dash was), whose
    industry is null (no keyword of the table occurs in the URL), whose
    address is the sniffer's result or null, and whose website is the URL.
    The URL is its own lower case and U+2014 is not alphanumeric, as Python
    has them. *)
Theorem scenario_B (doc : soup) (title : node) :
  lower pizza_url = pizza_url ->
  uni_isalnum 0x2014%N = false ->
  ld_json_scripts doc = [] ->
  og_metas doc = [] ->
  twitter_metas doc = [] ->
  find doc (u "title") any_attrs = Some title ->
  get_text title = pizza_title ->
  find doc (u "h1") any_attrs = None ->
  exists r,
    engine lower uni_isalnum uni_isdecimal json_loads coerce_str doc pizza_url = Ok r
    /\ businessName r = Some (u "Joes Pizza  Home")
    /\ industry r = None
    /\ address r = field_of (extract_address_from_text uni_isdecimal doc)
    /\ website r = Some pizza_url.
Proof.
  intros L D Hs Ho Ht Htitle Htext Hh1.
  assert (Es : extract_from_schema_org lower json_loads doc = Ok []).
  { unfold extract_from_schema_org. rewrite Hs. reflexivity. }
  rewrite (@engine_ok lower uni_isalnum uni_isdecimal json_loads coerce_str doc pizza_url [] Es).
  unfold extract_from_open_graph, extract_from_twitter_card.
  rewrite Ho, Ht, (pizza_industry doc L).
  unfold extract_from_html. rewrite Htitle, Hh1, Htext.
  change (strip pizza_title) with pizza_title.
  cbn [fold_left].
  destruct (extract_address_from_text_verdict uni_isdecimal doc) as [->|(c & m & ->)];
    destruct (find doc (u "meta") (attr_is (u "name") (u "description")))
      as [[t|nm attrs cs]|];
    try destruct (attr_get attrs (u "content")) as [content|];
    (rewrite (@clean_business_name_str _ pizza_title); [|reflexivity|discriminate]);
    rewrite (sanitize_pizza D);
    (eexists; split; [reflexivity|repeat split; reflexivity]).
Qed.

End ScenarioB.

Lemma scenario_B_witness :
  exists r,
    engine ascii_lower latin1_isalnum latin1_isdecimal (loads_table []) strict_str
      pizza_page pizza_url = Ok r
    /\ businessName r = Some (u "Joes Pizza  Home")
    /\ industry r = None
    /\ address r = field_of (extract_address_from_text latin1_isdecimal pizza_page)
    /\ website r = Some pizza_url.
Proof.
  apply (@scenario_B ascii_lower latin1_isalnum latin1_isdecimal (loads_table [])
           strict_str pizza_page
           (Tag (u "title") [] [NavigableString pizza_title]));
    vm_compute; reflexivity.
Defined.

(** The record of scenario B has neither the name nor the industry that
    were announced for it. *)
Lemma scenario_B_counterexample :
  exists r,
    engine ascii_lower latin1_isalnum latin1_isdecimal (loads_table []) strict_str
      pizza_page pizza_url = Ok r
    /\ businessName r <> Some (u "Joes Pizza Home")
    /\ industry r <> Some (u "Restaurant").
Proof.
  eexists. split; [vm_compute; reflexivity|].
  split; vm_compute; discriminate.
Qed.

(* ===================================================================== *)
(** ** The preview extractors: what they hold and which element wins *)
(* ===================================================================== *)

Section PreviewTags.

Variable lower : pystr -> pystr.
Variable meta_mapping : list (pystr * pystr).
Variable key : pystr.

Lemma dict_set_nonempty_str (d : dict) (k : pystr) (c : N) (s : pystr) :
  all_nonempty_str d -> all_nonempty_str (dict_set d k (PStr (c :: s))).
Proof.
  intros A. induction A as [|[k0 v0] d H0 A IH]; simpl.
  - repeat constructor. simpl. eauto.
  - destruct (str_eqb k0 k); constructor; simpl; eauto.
Qed.

Lemma dict_set_keys_within (keys : list pystr) (d : dict) (k : pystr) (v : pyval) :
  In k keys -> keys_within keys d -> keys_within keys (dict_set d k v).
Proof.
  intros K A. induction A as [|[k0 v0] d H0 A IH]; simpl.
  - repeat constructor. exact K.
  - destruct (str_eqb k0 k); constructor; assumption.
Qed.

Lemma attr_get_In (table : list (pystr * pystr)) (k v : pystr) :
  attr_get table k = Some v -> In v (map snd table).
Proof.
  induction table as [|[k0 v0] table IH]; simpl; [discriminate|].
  destruct (str_eqb k0 k).
  - intros E. injection E as ->. now left.
  - intros E. right. now apply IH.
Qed.

Lemma dict_get_nonempty_str (d : dict) (k : pystr) :
  all_nonempty_str d ->
  dict_get d k = PNone \/ exists c s, dict_get d k = PStr (c :: s).
Proof.
  unfold dict_get. intros A. induction A as [|[k0 v0] d H0 A IH]; simpl.
  - now left.
  - destruct (str_eqb k0 k); [right; exact H0|exact IH].
Qed.

Lemma meta_step_nonempty_str (data : dict) (meta : node) :
  all_nonempty_str data ->
  all_nonempty_str (meta_step lower meta_mapping key data meta).
Proof.
  intros A. unfold meta_step. destruct meta as [t|nm attrs cs]; [exact A|].
  destruct (attr_get meta_mapping _) as [field|]; [|exact A].
  destruct (attr_get attrs (u "content")) as [[|c content]|]; try exact A.
  cbn [truthy andb]. destruct (negb _); [|exact A].
  now apply dict_set_nonempty_str.
Qed.

Lemma meta_step_keys (data : dict) (meta : node) :
  keys_within (map snd meta_mapping) data ->
  keys_within (map snd meta_mapping) (meta_step lower meta_mapping key data meta).
Proof.
  intros K. unfold meta_step. destruct meta as [t|nm attrs cs]; [exact K|].
  destruct (attr_get meta_mapping _) as [field|] eqn:M; [|exact K].
  destruct (attr_get attrs (u "content")) as [content|]; [|exact K].
  destruct (_ && _); [|exact K].
  apply dict_set_keys_within; [|exact K]. eapply attr_get_In; eassumption.
Qed.

Lemma meta_loop_kept (metas : list node) :
  forall data,
  all_nonempty_str data /\ keys_within (map snd meta_mapping) data ->
  all_nonempty_str (fold_left (meta_step lower meta_mapping key) metas data)
  /\ keys_within (map snd meta_mapping)
       (fold_left (meta_step lower meta_mapping key) metas data).
Proof.
  induction metas as [|meta metas IH]; intros data [A K]; simpl; [now split|].
  apply IH. split; [now apply meta_step_nonempty_str|now apply meta_step_keys].
Qed.

(** The loop over the elements: a field already set stays as it is, a field
    not yet set takes the first content that names it. *)
Lemma meta_loop_first (metas : list node) (field : pystr) :
  forall data, all_nonempty_str data ->
  dict_get (fold_left (meta_step lower meta_mapping key) metas data) field
  = por (dict_get data field) (first_content lower meta_mapping key metas field).
Proof.
  induction metas as [|meta metas IH]; intros data A; simpl.
  - destruct (dict_get_nonempty_str field A) as [->|(c & s & ->)]; reflexivity.
  - assert (A' : all_nonempty_str (meta_step lower meta_mapping key data meta))
      by now apply meta_step_nonempty_str.
    rewrite (IH _ A'). clear IH A'.
    unfold meta_step. destruct meta as [t|nm attrs cs]; [reflexivity|].
    destruct (attr_get meta_mapping _) as [f|]; [|reflexivity].
    destruct (attr_get attrs (u "content")) as [[|c content]|]; try reflexivity.
    cbn [truthy andb].
    destruct (str_eqb f field) eqn:F.
    + apply str_eqb_eq in F. subst f.
      destruct (dict_get_nonempty_str field A) as [E|(c' & s' & E)]; rewrite E.
      * cbn [truthy negb]. rewrite dict_get_set_same. reflexivity.
      * cbn [truthy negb]. rewrite E. reflexivity.
    + destruct (negb _); [|reflexivity].
      rewrite dict_get_set, F. reflexivity.
Qed.

End PreviewTags.

Lemma keys_within_get (keys : list pystr) (d : dict) (k : pystr) :
  keys_within keys d -> dict_get d k <> PNone -> In k keys.
Proof.
  unfold dict_get. intros K. induction K as [|[k0 v0] d H0 K IH]; simpl.
  - congruence.
  - destruct (str_eqb k0 k) eqn:E; [|exact IH].
    apply str_eqb_eq in E. subst k0. intros _. exact H0.
Qed.

(** X1.  First write wins in the Open Graph extractor: the value of a field
    is the content of the first meta element, in document order, whose
    lower-cased property names that field and whose content is not empty;
    later elements for the same field are ignored. *)
Theorem open_graph_first_wins (lower : pystr -> pystr) (doc : soup) (field : pystr) :
  dict_get (extract_from_open_graph lower doc) field
  = first_content lower og_meta_mapping (u "property") (og_metas doc) field.
Proof.
  unfold extract_from_open_graph.
  rewrite (@meta_loop_first lower og_meta_mapping (u "property") (og_metas doc) field []);
    [reflexivity|constructor].
Qed.

(** X2.  First write wins in the Twitter card extractor as well. *)
Theorem twitter_card_first_wins (lower : pystr -> pystr) (doc : soup) (field : pystr) :
  dict_get (extract_from_twitter_card lower doc) field
  = first_content lower twitter_meta_mapping (u "name") (twitter_metas doc) field.
Proof.
  unfold extract_from_twitter_card.
  rewrite (@meta_loop_first lower twitter_meta_mapping (u "name") (twitter_metas doc) field []);
    [reflexivity|constructor].
Qed.

Lemma preview_sets_wellformed_og (lower : pystr -> pystr) (doc : soup) (k : pystr) :
  (dict_get (extract_from_open_graph lower doc) k = PNone
   \/ exists c s, dict_get (extract_from_open_graph lower doc) k = PStr (c :: s))
  /\ (dict_get (extract_from_open_graph lower doc) k <> PNone ->
      In k [u "businessName"; u "description"; u "logo"; u "website"; u "industry"]).
Proof.
  destruct (@meta_loop_kept lower og_meta_mapping (u "property") (og_metas doc) [])
    as [Ao Ko]; [split; constructor|].
  fold (extract_from_open_graph lower doc) in Ao, Ko.
  split; [now apply dict_get_nonempty_str|].
  intros H. apply (keys_within_get _ Ko) in H. simpl in H. simpl. tauto.
Qed.

Lemma preview_sets_wellformed_twitter (lower : pystr -> pystr) (doc : soup) (k : pystr) :
  (dict_get (extract_from_twitter_card lower doc) k = PNone
   \/ exists c s, dict_get (extract_from_twitter_card lower doc) k = PStr (c :: s))
  /\ (dict_get (extract_from_twitter_card lower doc) k <> PNone ->
      In k [u "businessName"; u "description"; u "logo"]).
Proof.
  destruct (@meta_loop_kept lower twitter_meta_mapping (u "name") (twitter_metas doc) [])
    as [At Kt]; [split; constructor|].
  fold (extract_from_twitter_card lower doc) in At, Kt.
  split; [now apply dict_get_nonempty_str|].
  intros H. apply (keys_within_get _ Kt) in H. exact H.
Qed.

(** X3.  The preview extractors never hold a null or an empty string: each
    field is missing or a non-empty string.  The Open Graph set has no other
    key than businessName, description, logo, website, industry; the Twitter
    set none but businessName, description, logo. *)
Theorem preview_sets_wellformed (lower : pystr -> pystr) (doc : soup) (k : pystr) :
  (dict_get (extract_from_open_graph lower doc) k = PNone
   \/ exists c s, dict_get (extract_from_open_graph lower doc) k = PStr (c :: s))
  /\ (dict_get (extract_from_open_graph lower doc) k <> PNone ->
      In k [u "businessName"; u "description"; u "logo"; u "website"; u "industry"])
  /\ (dict_get (extract_from_twitter_card lower doc) k = PNone
      \/ exists c s, dict_get (extract_from_twitter_card lower doc) k = PStr (c :: s))
  /\ (dict_get (extract_from_twitter_card lower doc) k <> PNone ->
      In k [u "businessName"; u "description"; u "logo"]).
Proof.
  destruct (preview_sets_wellformed_og lower doc k) as [O1 O2].
  destruct (preview_sets_wellformed_twitter lower doc k) as [T1 T2].
  repeat split; assumption.
Qed.

(* ===================================================================== *)
(** ** The generic HTML extractor *)
(* ===================================================================== *)

(** X4.  The name of the HTML extractor is the stripped text of the first
    h1 when the page has one, whatever the title says; otherwise the
    stripped text of the title; otherwise it is missing.  When present it
    has no whitespace at either end (and it may be empty).  The description
    is the content attribute of the first meta element named description,
    null when that element has no content attribute. *)
Theorem html_heading_over_title (doc : soup) (url : pystr) :
  dict_get (extract_from_html doc url) (u "businessName")
  = match find doc (u "h1") any_attrs, find doc (u "title") any_attrs with
    | Some h1, _ => PStr (strip (get_text h1))
    | None, Some title => PStr (strip (get_text title))
    | None, None => PNone
    end
  /\ (forall s, dict_get (extract_from_html doc url) (u "businessName") = PStr s ->
      trimmed s)
  /\ dict_get (extract_from_html doc url) (u "description")
     = match find doc (u "meta") (attr_is (u "name") (u "description")) with
       | Some (Tag _ attrs _) => opt_str (attr_get attrs (u "content"))
       | _ => PNone
       end.
Proof.
  assert (N : dict_get (extract_from_html doc url) (u "businessName")
    = match find doc (u "h1") any_attrs, find doc (u "title") any_attrs with
      | Some h1, _ => PStr (strip (get_text h1))
      | None, Some title => PStr (strip (get_text title))
      | None, None => PNone
      end).
  { unfold extract_from_html.
    destruct (find doc (u "h1") any_attrs) as [h1|];
      [now rewrite dict_get_set_same|].
    destruct (find doc (u "meta") _) as [[t|nm attrs cs]|];
      destruct (find doc (u "title") any_attrs) as [title|];
      rewrite ?dict_get_set; reflexivity. }
  split; [exact N|]. split.
  - rewrite N. intros s.
    destruct (find doc (u "h1") any_attrs) as [h1|];
      [|destruct (find doc (u "title") any_attrs) as [title|]];
      intros E; try discriminate; injection E as <-; apply strip_trimmed.
  - unfold extract_from_html.
    destruct (find doc (u "h1") any_attrs) as [h1|];
      destruct (find doc (u "meta") _) as [[t|nm attrs cs]|];
      destruct (find doc (u "title") any_attrs) as [title|];
      rewrite ?dict_get_set; reflexivity.
Qed.

(* ===================================================================== *)
(** ** The industry classifier: what a verdict means *)
(* ===================================================================== *)

Section Classifier.

Variable lower : pystr -> pystr.

(** X5.  A verdict is the capitalized key of a category one of whose
    patterns occurs in the lower-cased URL, and the classifier says [None]
    exactly when no pattern of any category occurs in it. *)
Theorem detect_industry_sound (url : pystr) (doc : soup) :
  (forall label, detect_industry_from_url lower url doc = PStr label ->
     exists industry patterns pattern,
       In (industry, patterns) industry_patterns
       /\ label = ascii_capitalize industry
       /\ In pattern patterns
       /\ contains pattern (lower url) = true)
  /\ (detect_industry_from_url lower url doc = PNone <->
      forall industry patterns pattern,
        In (industry, patterns) industry_patterns -> In pattern patterns ->
        contains pattern (lower url) = false).
Proof.
  unfold detect_industry_from_url.
  destruct (List.find _ industry_patterns) as [[industry pats]|] eqn:E.
  - apply find_some in E as [Hin Hhit]. simpl in Hhit.
    apply existsb_exists in Hhit as (p & Hp & Hc).
    split.
    + intros label H. injection H as <-. now exists industry, pats, p.
    + split; [discriminate|].
      intros H. rewrite (H industry pats p Hin Hp) in Hc. discriminate.
  - split; [discriminate|]. split; [|reflexivity].
    intros _ industry pats p Hin Hp.
    pose proof (find_none _ _ E _ Hin) as Hn. simpl in Hn.
    destruct (contains p (lower url)) eqn:C; [|reflexivity].
    assert (X : existsb (fun pattern => contains pattern (lower url)) pats = true)
      by (apply existsb_exists; now exists p).
    congruence.
Qed.

Lemma find_first_hit {A} (f : A -> bool) (pre : list A) (x : A) (post : list A) :
  (forall y, In y pre -> f y = false) -> f x = true ->
  List.find f (pre ++ x :: post) = Some x.
Proof.
  intros Hpre Hx. induction pre as [|y pre IH]; simpl.
  - now rewrite Hx.
  - rewrite (Hpre y (or_introl eq_refl)). apply IH.
    intros z Hz. apply Hpre. now right.
Qed.

(** X6.  The order of the table decides: when a category has a hit and no
    category before it in the table has one, the verdict is that category,
    whatever the categories after it would say. *)
Theorem detect_industry_first_hit (url : pystr) (doc : soup)
    (pre : list (pystr * list pystr)) (industry : pystr) (patterns : list pystr)
    (post : list (pystr * list pystr)) :
  industry_patterns = pre ++ (industry, patterns) :: post ->
  (forall entry pattern, In entry pre -> In pattern (snd entry) ->
     contains pattern (lower url) = false) ->
  (exists pattern, In pattern patterns /\ contains pattern (lower url) = true) ->
  detect_industry_from_url lower url doc = PStr (ascii_capitalize industry).
Proof.
  intros T Hpre Hhit. unfold detect_industry_from_url. rewrite T.
  rewrite find_first_hit; [reflexivity| |].
  - intros entry Hin. simpl.
    destruct (existsb _ (snd entry)) eqn:E; [|reflexivity].
    apply existsb_exists in E as (p & Hp & Hc).
    rewrite (Hpre entry p Hin Hp) in Hc. discriminate.
  - simpl. apply existsb_exists. exact Hhit.
Qed.

End Classifier.

Lemma detect_industry_sound_witness :
  exists industry patterns pattern,
    In (industry, patterns) industry_patterns
    /\ u "Restaurant" = ascii_capitalize industry
    /\ In pattern patterns
    /\ contains pattern (ascii_lower (u "https://Corner-Cafe.example")) = true.
Proof.
  apply (proj1 (@detect_industry_sound ascii_lower (u "https://Corner-Cafe.example") [])).
  vm_compute. reflexivity.
Defined.

(** A URL with "cafe" and "studio": Restaurant comes before Creative. *)
Lemma detect_industry_first_hit_witness :
  detect_industry_from_url ascii_lower (u "https://cafe-studio.example") []
  = PStr (u "Restaurant").
Proof.
  apply (@detect_industry_first_hit ascii_lower (u "https://cafe-studio.example") []
           [ (u "salon", [u "salon"; u "beauty"; u "hair"; u "nail"; u "spa"; u "barber"]) ]
           (u "restaurant")
           [u "restaurant"; u "cafe"; u "diner"; u "bistro"; u "eatery"]
           (skipn 2 industry_patterns)).
  - reflexivity.
  - intros entry pattern [<-|[]] Hp. simpl in Hp.
    repeat (destruct Hp as [<-|Hp]; [vm_compute; reflexivity|]). destruct Hp.
  - exists (u "cafe"). split; [right; left; reflexivity|vm_compute; reflexivity].
Defined.

(* ===================================================================== *)
(** ** The address sniffer: where its answer comes from *)
(* ===================================================================== *)

Lemma startswith_firstn (n : nat) (t : pystr) : startswith (firstn n t) t = true.
Proof.
  revert n. induction t as [|c t IH]; intros [|n]; simpl; try reflexivity.
  now rewrite N.eqb_refl, IH.
Qed.

Lemma contains_suffix (p pre t : pystr) :
  startswith p t = true -> contains p (pre ++ t) = true.
Proof.
  intros H. induction pre as [|c pre IH]; simpl.
  - destruct t; simpl; rewrite H; reflexivity.
  - rewrite IH. apply orb_true_r.
Qed.

(** The first match of [findall] is the text a match consumed at some
    position of the string. *)
Lemma findall_first_origin (r : regex) :
  (forall s rest, match_at r s = Some rest -> List.length rest < List.length s) ->
  forall fuel s m ms, findall_from fuel r s = m :: ms ->
  exists pre t rest,
    s = pre ++ t /\ match_at r t = Some rest
    /\ m = firstn (List.length t - List.length rest) t.
Proof.
  intros C fuel. induction fuel as [|fuel IH]; intros s m ms; simpl; [discriminate|].
  destruct (match_at r s) as [rest|] eqn:E.
  - intros H. exists [], s, rest. split; [reflexivity|]. split; [exact E|].
    destruct (firstn (List.length s - List.length rest) s) as [|c t] eqn:F.
    + exfalso. apply C in E.
      assert (D : exists n, List.length s - List.length rest = S n)
        by (exists (List.length s - List.length rest - 1); lia).
      destruct D as [n D]. rewrite D in F.
      destruct s as [|c s]; [simpl in E; lia|discriminate F].
    + now injection H as <- _.
  - destruct s as [|c s]; [discriminate|]. intros H.
    destruct (IH _ _ _ H) as (pre & t & rest & -> & M & F).
    exists (c :: pre), t, rest. auto.
Qed.

Lemma address_match_digit (uni_isdecimal : N -> bool) (t rest : pystr) :
  match_at (address_pattern uni_isdecimal) t = Some rest ->
  exists c t', t = c :: t' /\ is_digit uni_isdecimal c = true.
Proof.
  unfold match_at, address_pattern. simpl.
  destruct t as [|c t]; [discriminate|].
  destruct (is_digit uni_isdecimal c) eqn:D; [|discriminate].
  intros _. now exists c, t.
Qed.

(** X7.  An address the sniffer returns is taken from the footer: the page
    has a footer element, the answer occurs in its text as it stands, and
    it begins with a digit.  A page without a footer gets no address. *)
Theorem sniffed_address_from_footer (uni_isdecimal : N -> bool) (doc : soup)
    (m : pystr) :
  extract_address_from_text uni_isdecimal doc = PStr m ->
  exists footer,
    find doc (u "footer") any_attrs = Some footer
    /\ contains m (get_text footer) = true
    /\ exists c m', m = c :: m' /\ is_digit uni_isdecimal c = true.
Proof.
  unfold extract_address_from_text.
  destruct (find doc (u "footer") any_attrs) as [footer|]; [|discriminate].
  destruct (findall _ _) as [|m0 ms] eqn:E; [discriminate|].
  intros H. injection H as ->. exists footer. split; [reflexivity|].
  unfold findall in E.
  assert (C : forall s rest, match_at (address_pattern uni_isdecimal) s = Some rest ->
                List.length rest < List.length s)
    by (intros s rest; unfold address_pattern; apply plus_consumes).
  destruct (@findall_first_origin _ C _ _ _ _ E) as (pre & t & rest & Ht & M & F).
  split.
  - rewrite Ht, F. apply contains_suffix, startswith_firstn.
  - destruct (@address_match_digit _ _ _ M) as (c & t' & -> & D).
    apply C in M.
    assert (L : List.length (c :: t') = S (List.length t')) by reflexivity.
    assert (X : exists n, List.length (c :: t') - List.length rest = S n)
      by (exists (List.length t' - List.length rest); rewrite L in *; lia).
    destruct X as [n X]. rewrite X in F. simpl in F.
    exists c, (firstn n t'). split; [exact F|exact D].
Qed.

(* ===================================================================== *)
(** ** The address formatter and the structured-data extractor: errors *)
(* ===================================================================== *)

Lemma as_strs_raise_iff (l : list pyval) (e : exn) :
  as_strs l = Raise e <->
  e = TypeError /\ Exists (fun v => is_pstr v = false) l.
Proof.
  induction l as [|v l IH]; simpl.
  - split; [discriminate|]. intros [_ H]. inversion H.
  - destruct v as [| b | z | f | s | l' | d];
      try (split; [intros H; injection H as <-; split;
                     [reflexivity|now apply Exists_cons_hd]
                  |now intros [-> _]]).
    destruct (as_strs l) as [ss|e'] eqn:R; simpl.
    + split; [discriminate|]. intros [E H].
      apply Exists_cons in H as [H|H]; [discriminate H|].
      pose proof (proj2 IH (conj E H)) as X. discriminate X.
    + split.
      * intros H. destruct (proj1 IH H) as [E X]. split; [exact E|].
        now apply Exists_cons_tl.
      * intros [E H]. apply Exists_cons in H as [H|H]; [discriminate H|].
        exact (proj2 IH (conj E H)).
Qed.

Lemma Exists_filter_truthy (vs : list pyval) :
  Exists (fun v => is_pstr v = false) (filter truthy vs) <->
  Exists (fun v => truthy v = true /\ is_pstr v = false) vs.
Proof.
  rewrite !Exists_exists. split.
  - intros (v & Hin & P). apply filter_In in Hin as [Hin T]. now exists v.
  - intros (v & Hin & T & P). exists v. split; [|exact P].
    apply filter_In. now split.
Qed.

Lemma as_strs_raises (vs : list pyval) (e : exn) :
  as_strs (filter truthy vs) = Raise e <->
  e = TypeError /\ Exists (fun v => truthy v = true /\ is_pstr v = false) vs.
Proof. rewrite as_strs_raise_iff, Exists_filter_truthy. reflexivity. Qed.

(** X8.  The formatter fails in one way only: with a [TypeError], on a
    non-empty address object one of whose five components is truthy and not
    a string (a number, a nested object, a list). *)
Theorem extract_address_raises (address : pyval) (e : exn) :
  _extract_address address = Raise e <->
  e = TypeError
  /\ exists kv d, address = PDict (kv :: d)
       /\ Exists (fun v => truthy v = true /\ is_pstr v = false)
            (map (dict_get (kv :: d)) address_keys).
Proof.
  destruct address as [| b | z | f | s | l | d];
    try (split; [unfold _extract_address; simpl;
                 repeat match goal with
                        | |- context [if ?c then _ else _] => destruct c
                        | |- context [match ?x with _ => _ end] => destruct x
                        end; discriminate
                |intros (_ & kv & d' & E & _); discriminate E]).
  destruct d as [|kv d].
  - split; [discriminate|]. intros (_ & kv & d' & E & _). discriminate E.
  - unfold _extract_address. cbn [truthy negb]. unfold str_join.
    change [dict_get (kv :: d) (u "streetAddress");
            dict_get (kv :: d) (u "addressLocality");
            dict_get (kv :: d) (u "addressRegion");
            dict_get (kv :: d) (u "postalCode");
            dict_get (kv :: d) (u "addressCountry")]
      with (map (dict_get (kv :: d)) address_keys).
    destruct (as_strs (filter truthy (map (dict_get (kv :: d)) address_keys)))
      as [ss|e'] eqn:R; simpl.
    + split; [discriminate|]. intros (-> & kv' & d' & E & X).
      injection E as <- <-.
      pose proof (proj2 (as_strs_raises _ TypeError) (conj eq_refl X)) as H.
      change (as_strs (filter truthy (map (dict_get (kv :: d)) address_keys))
              = Raise TypeError) in H.
      rewrite R in H. discriminate H.
    + apply as_strs_raises in R as [-> X]. split.
      * intros H. injection H as <-. split; [reflexivity|]. now exists kv, d.
      * now intros [-> _].
Qed.

Section SchemaBlocks.

Variable lower : pystr -> pystr.
Variable json_loads : pystr -> option pyval.

Lemma extract_address_only_type_error (address : pyval) (e : exn) :
  _extract_address address = Raise e -> e = TypeError.
Proof.
  unfold _extract_address. destruct (negb (truthy address)); [discriminate|].
  destruct address; try discriminate.
  unfold str_join. destruct (as_strs _) as [ss|e'] eqn:R; simpl; [discriminate|].
  intros H. injection H as <-. now apply as_strs_raise_iff in R.
Qed.

(** X9.  An item is refused with an [AttributeError] exactly when it is not
    an object, or when its [@type] is there and is not a string (a list of
    types, a null): the two cases the handler of the extractor absorbs. *)
Theorem schema_item_attribute_error (item : pyval) :
  _extract_schema_item lower item = Raise AttributeError <->
  is_dict item = false
  \/ exists d, item = PDict d
       /\ is_pstr (dict_get_default d (u "@type") (PStr [])) = false.
Proof.
  unfold _extract_schema_item.
  destruct item as [| b | z | f | s | l | d];
    try (split; [now left|reflexivity]).
  destruct (dict_get_default d (u "@type") (PStr [])) as [| b | z | f | t | l | d'] eqn:T;
    try (split; [intros _; right; exists d; now rewrite T|reflexivity]).
  split.
  - destruct (_ || _).
    + destruct (_extract_address _) as [a|e] eqn:A; simpl; [discriminate|].
      apply extract_address_only_type_error in A. subst e. discriminate.
    + destruct (contains _ _); discriminate.
  - intros [H|(d0 & E & H)]; [discriminate H|].
    injection E as <-. rewrite T in H. discriminate H.
Qed.

Lemma update_each_app (good rest : list pyval) :
  forall schema_data schema_data',
  update_each lower schema_data good = (schema_data', None) ->
  update_each lower schema_data (good ++ rest) = update_each lower schema_data' rest.
Proof.
  induction good as [|item good IH]; intros sd sd' H; simpl in *.
  - now injection H as <-.
  - destruct (_extract_schema_item lower item); [|discriminate]. now apply IH.
Qed.

(** X10.  A refused item cuts its block short: the items before it in the
    block have been merged and stay, the items after it in the same block
    are never looked at, and the extractor goes on with the next block. *)
Theorem schema_block_cut_short (schema_data schema_data' : dict) (script : node)
    (text : pystr) (good : list pyval) (bad : pyval) (more : list pyval)
    (rest : list node) :
  node_string script = Some text ->
  json_loads text = Some (PList (good ++ bad :: more)) ->
  update_each lower schema_data good = (schema_data', None) ->
  _extract_schema_item lower bad = Raise AttributeError ->
  schema_loop lower json_loads schema_data (script :: rest)
  = schema_loop lower json_loads schema_data' rest.
Proof.
  intros Hs Hj Hg Hb. simpl. unfold schema_try. rewrite Hs, Hj.
  rewrite (@update_each_app good (bad :: more) _ _ Hg). simpl. rewrite Hb. reflexivity.
Qed.

(** X11.  An item whose projection fails with a [TypeError] (a business
    item whose address object has a component that is not a string) stops
    the whole extractor: no later item or block is processed and nothing is
    returned. *)
Theorem schema_type_error_escapes (schema_data schema_data' : dict) (script : node)
    (text : pystr) (good : list pyval) (bad : pyval) (more : list pyval)
    (rest : list node) :
  node_string script = Some text ->
  json_loads text = Some (PList (good ++ bad :: more)) ->
  update_each lower schema_data good = (schema_data', None) ->
  _extract_schema_item lower bad = Raise TypeError ->
  schema_loop lower json_loads schema_data (script :: rest) = Raise TypeError.
Proof.
  intros Hs Hj Hg Hb. simpl. unfold schema_try. rewrite Hs, Hj.
  rewrite (@update_each_app good (bad :: more) _ _ Hg). simpl. rewrite Hb. reflexivity.
Qed.

Lemma dict_update_keys_within (keys : list pystr) (r : dict) :
  keys_within keys r ->
  forall d, keys_within keys d -> keys_within keys (dict_update d r).
Proof.
  unfold dict_update. induction 1 as [|[k v] r Hk Hr IH]; intros d Hd; simpl.
  - exact Hd.
  - apply IH. now apply dict_set_keys_within.
Qed.

Lemma schema_item_keys_within (item : pyval) (r : dict) :
  _extract_schema_item lower item = Ok r -> keys_within business_keys r.
Proof.
  intros H. apply schema_item_keys in H.
  unfold keys_within. apply Forall_map with (f := fst) (P := fun k => In k business_keys).
  destruct H as [->|[->| ->]]; unfold business_keys, person_keys;
    repeat constructor; simpl; tauto.
Qed.

Lemma update_each_keys_within (items : list pyval) :
  forall schema_data, keys_within business_keys schema_data ->
  keys_within business_keys (fst (update_each lower schema_data items)).
Proof.
  induction items as [|item items IH]; intros sd K; simpl; [exact K|].
  destruct (_extract_schema_item lower item) as [r|e] eqn:E; [|exact K].
  apply IH. apply dict_update_keys_within; [|exact K].
  eapply schema_item_keys_within. eassumption.
Qed.

Lemma schema_try_keys_within (schema_data : dict) (script : node) :
  keys_within business_keys schema_data ->
  keys_within business_keys (fst (schema_try lower json_loads schema_data script)).
Proof.
  intros K. unfold schema_try.
  destruct (node_string script) as [text|]; [|exact K].
  destruct (json_loads text) as [[| b | z | f | s | l | d]|]; try exact K;
    now apply update_each_keys_within.
Qed.

Lemma schema_loop_keys_within (scripts : list node) :
  forall schema_data result,
  keys_within business_keys schema_data ->
  schema_loop lower json_loads schema_data scripts = Ok result ->
  keys_within business_keys result.
Proof.
  induction scripts as [|script scripts IH]; intros sd result K; simpl.
  - intros H. now injection H as <-.
  - pose proof (schema_try_keys_within script K) as K'.
    destruct (schema_try lower json_loads sd script) as [sd' [e|]]; simpl in K'.
    + destruct (schema_caught e); [now apply IH|discriminate].
    + now apply IH.
Qed.

Lemma keys_within_mem (keys : list pystr) (d : dict) (k : pystr) :
  keys_within keys d -> dict_mem d k = true -> In k keys.
Proof.
  intros K. induction K as [|[k0 v0] d H0 K IH]; simpl; [discriminate|].
  destruct (str_eqb k0 k) eqn:E; [|exact IH].
  apply str_eqb_eq in E. subst k0. intros _. exact H0.
Qed.

Lemma dict_get_not_mem (d : dict) (k : pystr) :
  dict_mem d k = false -> dict_get d k = PNone.
Proof.
  unfold dict_get. induction d as [|[k0 v0] d IH]; simpl; [reflexivity|].
  destruct (str_eqb k0 k); [discriminate|exact IH].
Qed.

(** X12.  Whatever the page holds, the candidate set of the structured-data
    extractor has no key other than businessName, description, address and
    industry.  It never supplies a logo or a website, so the logo of the
    merge comes from the preview tags alone. *)
Theorem schema_keys (doc : soup) (schema_data : dict) :
  extract_from_schema_org lower json_loads doc = Ok schema_data ->
  (forall k, dict_mem schema_data k = true -> In k business_keys)
  /\ dict_get schema_data (u "logo") = PNone
  /\ dict_get schema_data (u "website") = PNone
  /\ forall og tw html di da url,
       dict_get (merge schema_data og tw html di da url) (u "logo")
       = por (dict_get og (u "logo")) (dict_get tw (u "logo")).
Proof.
  intros H. unfold extract_from_schema_org in H.
  apply schema_loop_keys_within in H; [|constructor].
  assert (M : forall k, dict_mem schema_data k = true -> In k business_keys)
    by (intros k; now apply keys_within_mem).
  assert (L : dict_get schema_data (u "logo") = PNone).
  { apply dict_get_not_mem. destruct (dict_mem schema_data (u "logo")) eqn:E;
      [|reflexivity]. apply M in E. simpl in E.
    repeat (destruct E as [E|E]; [vm_compute in E; discriminate E|]). destruct E. }
  assert (W : dict_get schema_data (u "website") = PNone).
  { apply dict_get_not_mem. destruct (dict_mem schema_data (u "website")) eqn:E;
      [|reflexivity]. apply M in E. simpl in E.
    repeat (destruct E as [E|E]; [vm_compute in E; discriminate E|]). destruct E. }
  repeat split; try assumption.
  intros og tw html di da url.
  change (dict_get (merge schema_data og tw html di da url) (u "logo"))
    with (por (por (dict_get schema_data (u "logo")) (dict_get og (u "logo")))
              (dict_get tw (u "logo"))).
  rewrite L. reflexivity.
Qed.

End SchemaBlocks.

(* ===================================================================== *)
(** ** The clean-up loses no visible kept character *)
(* ===================================================================== *)

Lemma filter_filter_impl (f g : N -> bool) (s : pystr) :
  (forall c, g c = true -> f c = true) ->
  filter g (filter f s) = filter g s.
Proof.
  intros H. induction s as [|c s IH]; simpl; [reflexivity|].
  destruct (f c) eqn:F; simpl.
  - now rewrite IH.
  - destruct (g c) eqn:G; [|exact IH]. apply H in G. congruence.
Qed.

Lemma filter_whitespace_nil (g : N -> bool) (s : pystr) :
  (forall c, isspace c = true -> g c = false) ->
  Forall (fun c => isspace c = true) s -> filter g s = [].
Proof.
  intros H. induction 1 as [|c s Hc _ IH]; simpl; [reflexivity|].
  now rewrite (H c Hc).
Qed.

(** X13.  The clean-up of the name only deletes: the result is never longer
    than the name, and every character of the kept class that is not
    whitespace (letters, digits, underscore, hyphen, ampersand) is still
    there, in the same order and as many times. *)
Theorem sanitize_keeps_visible (uni_isalnum : N -> bool) (s : pystr) :
  filter (kept_visible uni_isalnum) (sanitize uni_isalnum s)
  = filter (kept_visible uni_isalnum) s
  /\ List.length (sanitize uni_isalnum s) <= List.length s.
Proof.
  destruct (sanitize_split uni_isalnum s) as (pre & post & E & Fpre & Fpost).
  assert (W : forall c, isspace c = true -> kept_visible uni_isalnum c = false).
  { intros c Hc. unfold kept_visible. rewrite Hc. apply andb_false_r. }
  split.
  - rewrite <- (@filter_filter_impl (keep_char uni_isalnum) (kept_visible uni_isalnum) s).
    + rewrite E, !filter_app.
      rewrite (filter_whitespace_nil _ W Fpre), (filter_whitespace_nil _ W Fpost).
      now rewrite app_nil_r.
    + intros c H. unfold kept_visible in H. now apply andb_true_iff in H.
  - pose proof (filter_length_le (keep_char uni_isalnum) s) as L.
    rewrite E, !length_app in L. lia.
Qed.

(* ===================================================================== *)
(** ** The engine: where the fields of the record come from *)
(* ===================================================================== *)

Section Record.

Variable lower : pystr -> pystr.
Variable uni_isalnum : N -> bool.
Variable uni_isdecimal : N -> bool.
Variable json_loads : pystr -> option pyval.
Variable coerce_str : pyval -> option pystr.

Local Abbreviation run_engine :=
  (engine lower uni_isalnum uni_isdecimal json_loads coerce_str).
Local Abbreviation merged doc url schema_data :=
  (merge schema_data (extract_from_open_graph lower doc)
     (extract_from_twitter_card lower doc) (extract_from_html doc url)
     (detect_industry_from_url lower url doc)
     (extract_address_from_text uni_isdecimal doc) url).

Lemma open_graph_get (doc : soup) (k : pystr) :
  dict_get (extract_from_open_graph lower doc) k = PNone
  \/ exists c s, dict_get (extract_from_open_graph lower doc) k = PStr (c :: s).
Proof. exact (proj1 (preview_sets_wellformed_og lower doc k)). Qed.

Lemma BusinessMetadata_of_raw (merged_data : dict) (r : BusinessMetadata) :
  BusinessMetadata_of coerce_str merged_data = Ok r ->
  validate_dict (dict_get merged_data (u "rawMetadata")) = Ok (rawMetadata r).
Proof.
  unfold BusinessMetadata_of.
  destruct (validate_str coerce_str (dict_get merged_data (u "businessName"))); [|discriminate].
  destruct (validate_str coerce_str (dict_get merged_data (u "description"))); [|discriminate].
  destruct (validate_str coerce_str (dict_get merged_data (u "industry"))); [|discriminate].
  destruct (validate_str coerce_str (dict_get merged_data (u "address"))); [|discriminate].
  destruct (validate_str coerce_str (dict_get merged_data (u "website"))); [|discriminate].
  destruct (validate_str coerce_str (dict_get merged_data (u "logo"))); [|discriminate].
  destruct (validate_dict (dict_get merged_data (u "rawMetadata"))); [|discriminate].
  simpl. intros H. injection H as <-. reflexivity.
Qed.

(** What the engine has in hand when it returns a record. *)
Lemma engine_parts (doc : soup) (url : pystr) (r : BusinessMetadata) :
  run_engine doc url = Ok r ->
  exists schema_data merged_data,
    extract_from_schema_org lower json_loads doc = Ok schema_data
    /\ BusinessMetadata_of coerce_str merged_data = Ok r
    /\ forall k, str_eqb (u "businessName") k = false ->
         dict_get merged_data k = dict_get (merged doc url schema_data) k.
Proof.
  intros H.
  apply (@engine_inv lower uni_isalnum uni_isdecimal json_loads coerce_str) in H
    as (sd & m & E & C & B).
  exists sd, m. split; [exact E|]. split; [exact B|].
  intros k K. exact (@clean_business_name_other uni_isalnum _ _ k C K).
Qed.

(** X14.  The website of a returned record is the website of the Open
    Graph set (the content of og:url) when it has one, and the requested
    URL otherwise; it is never null. *)
Theorem record_website (doc : soup) (url : pystr) (r : BusinessMetadata) :
  run_engine doc url = Ok r ->
  website r = Some (match dict_get (extract_from_open_graph lower doc) (u "website") with
                    | PStr w => w
                    | _ => url
                    end).
Proof.
  intros H. apply engine_parts in H as (sd & m & _ & B & G).
  apply BusinessMetadata_of_inv in B as (_ & _ & _ & _ & Bw & _).
  rewrite (G (u "website") eq_refl) in Bw.
  change (dict_get (merged doc url sd) (u "website"))
    with (por (dict_get (extract_from_open_graph lower doc) (u "website")) (PStr url))
    in Bw.
  clear G.
  destruct (open_graph_get doc (u "website")) as [E|(c & s & E)];
    rewrite E in *; simpl in Bw |- *; injection Bw as Bw; now rewrite <- Bw.
Qed.

(** X15.  The rawMetadata of a returned record holds the four candidate
    sets as the extractors produced them and the classifier's verdict: the
    clean-up of the name does not reach them. *)
Theorem record_raw_metadata (doc : soup) (url : pystr) (r : BusinessMetadata) :
  run_engine doc url = Ok r ->
  exists schema_data,
    extract_from_schema_org lower json_loads doc = Ok schema_data
    /\ rawMetadata r
       = Some [ (u "schema", PDict schema_data);
                (u "openGraph", PDict (extract_from_open_graph lower doc));
                (u "twitter", PDict (extract_from_twitter_card lower doc));
                (u "html", PDict (extract_from_html doc url));
                (u "detectedIndustry", detect_industry_from_url lower url doc) ].
Proof.
  intros H. apply engine_parts in H as (sd & m & E & B & G).
  exists sd. split; [exact E|].
  apply BusinessMetadata_of_raw in B.
  rewrite (G (u "rawMetadata") eq_refl) in B.
  change (dict_get (merged doc url sd) (u "rawMetadata"))
    with (PDict [ (u "schema", PDict sd);
                  (u "openGraph", PDict (extract_from_open_graph lower doc));
                  (u "twitter", PDict (extract_from_twitter_card lower doc));
                  (u "html", PDict (extract_from_html doc url));
                  (u "detectedIndustry", detect_industry_from_url lower url doc) ])
    in B.
  simpl in B. injection B as B. now rewrite <- B.
Qed.

(** X16.  The industry of a returned record: a non-empty string of the
    structured data wins; when the structured data has nothing truthy, the
    content of og:type wins over the classifier, whose verdict is used only
    when the page has no og:type either. *)
Theorem record_industry (doc : soup) (url : pystr) (r : BusinessMetadata)
    (schema_data : dict) :
  extract_from_schema_org lower json_loads doc = Ok schema_data ->
  run_engine doc url = Ok r ->
  (forall c s, dict_get schema_data (u "industry") = PStr (c :: s) ->
     industry r = Some (c :: s))
  /\ (truthy (dict_get schema_data (u "industry")) = false ->
      industry r
      = match dict_get (extract_from_open_graph lower doc) (u "industry") with
        | PStr t => Some t
        | _ => field_of (detect_industry_from_url lower url doc)
        end).
Proof.
  intros E H. apply engine_parts in H as (sd & m & E' & B & G).
  assert (sd = schema_data) by congruence. subst sd. clear E'.
  apply BusinessMetadata_of_inv in B as (_ & _ & Bi & _).
  rewrite (G (u "industry") eq_refl) in Bi.
  change (dict_get (merged doc url schema_data) (u "industry"))
    with (por (por (dict_get schema_data (u "industry"))
                   (dict_get (extract_from_open_graph lower doc) (u "industry")))
              (detect_industry_from_url lower url doc)) in Bi.
  split.
  - intros c s S. rewrite S in Bi. simpl in Bi. injection Bi as Bi. now rewrite <- Bi.
  - intros F. rewrite (@por_falsy _ _ F) in Bi.
    clear G.
    destruct (open_graph_get doc (u "industry")) as [O|(c & s & O)];
      rewrite O in *.
    + rewrite (@por_falsy PNone _ eq_refl) in Bi.
      destruct (detect_industry_verdict lower url doc) as [D|(c & s & D)];
        rewrite D in *; simpl in Bi |- *; injection Bi as Bi; now rewrite <- Bi.
    + simpl in Bi |- *. injection Bi as Bi. now rewrite <- Bi.
Qed.

End Record.

(* ===================================================================== *)
(** ** The engine and the endpoint: how they fail *)
(* ===================================================================== *)

Section Failures.

Variable lower : pystr -> pystr.
Variable uni_isalnum : N -> bool.
Variable uni_isdecimal : N -> bool.
Variable json_loads : pystr -> option pyval.
Variable coerce_str : pyval -> option pystr.









(** X18.  A structured-data name that wins the merge and is not a string (a
    number, a list, a nested object) makes the engine fail in the clean-up
    with a [TypeError], and the endpoint answers 500 instead of a record. *)
Theorem non_string_name_fails (doc : soup) (url : pystr) (schema_data : dict)
    (fetch : pystr -> result soup) :
  extract_from_schema_org lower json_loads doc = Ok schema_data ->
  truthy (dict_get schema_data (u "businessName")) = true ->
  is_pstr (dict_get schema_data (u "businessName")) = false ->
  engine lower uni_isalnum uni_isdecimal json_loads coerce_str doc url = Raise TypeError
  /\ (startswith (u "http://") url || startswith (u "https://") url = true ->
      contains (u "instagram.com") (lower url) = false ->
      fetch url = Ok doc ->
      extract_metadata lower uni_isalnum uni_isdecimal json_loads coerce_str fetch url
      = Raise (HTTPException 500)).
Proof.
  intros S T P.
  assert (E : engine lower uni_isalnum uni_isdecimal json_loads coerce_str doc url
              = Raise TypeError).
  { rewrite (@engine_ok lower uni_isalnum uni_isdecimal json_loads coerce_str
               doc url schema_data S).
    unfold clean_business_name.
    rewrite merge_businessName_chain, T, T.
    destruct (dict_get schema_data (u "businessName")); try reflexivity.
    discriminate P. }
  split; [exact E|].
  intros Hs Hi Hf. unfold extract_metadata. rewrite Hs, Hi, Hf. simpl.
  rewrite E. reflexivity.
Qed.


End Failures.

(* ===================================================================== *)
(** ** The Instagram OAuth endpoints *)
(* ===================================================================== *)

Lemma split_char_nonempty (sep : N) (s : pystr) : split_char sep s <> [].
Proof.
  destruct s as [|c s]; simpl; [discriminate|].
  destruct (c =? sep)%N; [discriminate|].
  destruct (split_char sep s); discriminate.
Qed.

(** Joining the pieces of a split with the separator gives the string back,
    and no piece holds the separator. *)
Lemma split_char_join (sep : N) (s : pystr) :
  join [sep] (split_char sep s) = s
  /\ Forall (fun piece => ~ In sep piece) (split_char sep s).
Proof.
  induction s as [|c s [IHj IHf]]; simpl.
  - split; [reflexivity|]. repeat constructor. intros [].
  - destruct (c =? sep)%N eqn:E.
    + apply N.eqb_eq in E. subst c. split.
      * pose proof (split_char_nonempty sep s) as N.
        destruct (split_char sep s) as [|p ps]; [contradiction|].
        simpl in *. now rewrite IHj.
      * constructor; [intros []|exact IHf].
    + apply N.eqb_neq in E.
      destruct (split_char sep s) as [|p ps] eqn:S.
      * now destruct (split_char_nonempty sep s).
      * split.
        -- destruct ps; simpl in *; now rewrite <- IHj.
        -- inversion IHf as [|? ? Hp Hps]; subst. constructor; [|exact Hps].
           intros [H|H]; [congruence|contradiction].
Qed.

Section OAuth.

Variable getenv : pystr -> option pystr.
Variable http_get : pystr -> dict -> result pyval.
Variable coerce_str : pyval -> option pystr.

Lemma get_instagram_config_raises (e : exn) :
  get_instagram_config getenv = Raise e -> e = HTTPException 500.
Proof.
  unfold get_instagram_config.
  destruct (getenv (u "INSTAGRAM_CLIENT_ID")) as [[|c i]|];
    destruct (getenv (u "INSTAGRAM_CLIENT_SECRET")) as [[|d s]|];
    try discriminate; intros H; now injection H as <-.
Qed.

(** X20.  The authorization URL and the list of scopes of the answer agree:
    the URL is the dialog address with the client id, the redirect URI and
    a scope parameter, in that order and inserted as they are, and the
    scopes of the answer joined with commas are that scope parameter; no
    scope is empty.  Without the two credentials in the environment
    the endpoint fails with 500. *)
Theorem auth_url_scopes :
  (forall answer, get_instagram_auth_url getenv = Ok answer ->
     exists config scopes,
       get_instagram_config getenv = Ok config
       /\ dict_get answer (u "scopes") = PList (map PStr scopes)
       /\ List.length scopes = 14
       /\ Forall (fun scope => scope <> [] /\ ~ In 44%N scope) scopes
       /\ dict_get answer (u "authUrl")
          = PStr (u "https://www.facebook.com/v18.0/dialog/oauth?client_id="
                  ++ client_id config
                  ++ u "&redirect_uri=" ++ redirect_uri config
                  ++ u "&scope=" ++ join [44%N] scopes
                  ++ u "&response_type=code"))
  /\ (forall e, get_instagram_auth_url getenv = Raise e -> e = HTTPException 500).
Proof.
  unfold get_instagram_auth_url. split.
  - intros answer. destruct (get_instagram_config getenv) as [config|e] eqn:C;
      simpl; [|discriminate].
    intros H. injection H as <-.
    exists config, (split_char 44 instagram_scope).
    split; [reflexivity|]. split; [reflexivity|]. split; [vm_compute; reflexivity|].
    split.
    + apply Forall_forall. intros scope Hin.
      split.
      * vm_compute in Hin.
        repeat (destruct Hin as [<-|Hin]; [discriminate|]). destruct Hin.
      * pose proof (proj2 (split_char_join 44 instagram_scope)) as F.
        rewrite Forall_forall in F. now apply F.
    + rewrite (proj1 (split_char_join 44 instagram_scope)). reflexivity.
  - intros e. destruct (get_instagram_config getenv) as [config|e'] eqn:C;
      simpl; [discriminate|].
    intros H. injection H as <-. now apply get_instagram_config_raises.
Qed.

Lemma catch_oauth_raises {A} (r : result A) (e : exn) :
  catch_oauth r = Raise e ->
  exists e0, r = Raise e0 /\ e = oauth_http_error e0.
Proof.
  destruct r as [a|e0]; simpl; [discriminate|].
  intros H. injection H as <-. now exists e0.
Qed.

Lemma access_token_of_missing (d : dict) :
  dict_mem d (u "access_token") = false ->
  access_token_of (PDict d) = Raise (HTTPException 400).
Proof. intros H. unfold access_token_of. simpl. now rewrite H. Qed.

Lemma access_token_of_present (d : dict) :
  dict_mem d (u "access_token") = true ->
  access_token_of (PDict d) = Ok (dict_get d (u "access_token")).
Proof. intros H. unfold access_token_of. simpl. now rewrite H. Qed.

(** [access_token_of] never fails with the exception of an upstream answer,
    and succeeds on objects only. *)
Lemma access_token_of_raises (data : pyval) (e : exn) :
  access_token_of data = Raise e -> forall status, e <> HTTPStatusError status.
Proof.
  unfold access_token_of.
  destruct data as [| b | z | f | s | l | d]; simpl;
    try (intros H; injection H as <-; discriminate).
  - destruct (contains _ s); simpl; intros H; injection H as <-; discriminate.
  - destruct (existsb _ l); simpl; intros H; injection H as <-; discriminate.
  - destruct (dict_mem d _); simpl; [discriminate|].
    intros H. injection H as <-. discriminate.
Qed.

Lemma access_token_of_ok (data token : pyval) :
  access_token_of data = Ok token -> is_dict data = true.
Proof.
  unfold access_token_of.
  destruct data as [| b | z | f | s | l | d]; simpl; try discriminate;
    try reflexivity.
  - destruct (contains _ s); discriminate.
  - destruct (existsb _ l); discriminate.
Qed.

(** X21.  A first token answer that is an object without an access_token
    does not give the 400 written for it: the exception is raised inside
    the [try], the generic handler catches it, and the caller gets 500. *)
Theorem callback_missing_token_is_500 (request : InstagramAuthRequest)
    (config : InstagramConfig) (token_data : dict) :
  get_instagram_config getenv = Ok config ->
  http_get (u "https://graph.facebook.com/v18.0/oauth/access_token")
    (code_exchange_params config (callback_redirect config request) request)
    = Ok (PDict token_data) ->
  dict_mem token_data (u "access_token") = false ->
  instagram_callback getenv http_get request = Raise (HTTPException 500).
Proof.
  intros C H M. unfold instagram_callback. rewrite C. simpl.
  unfold instagram_callback_body. rewrite H. simpl.
  rewrite (@access_token_of_missing _ M). reflexivity.
Qed.

Lemma callback_body_status (config : InstagramConfig) (redirect : pystr)
    (request : InstagramAuthRequest) (status : N) :
  instagram_callback_body http_get config redirect request
    = Raise (HTTPStatusError status) ->
  exists url params, http_get url params = Raise (HTTPStatusError status).
Proof.
  unfold instagram_callback_body.
  destruct (http_get _ (code_exchange_params config redirect request))
    as [token_data|e1] eqn:H1; simpl.
  - destruct (access_token_of token_data) as [short|e2] eqn:A1; simpl.
    + destruct (http_get _ (token_exchange_params config short))
        as [long_data|e3] eqn:H2; simpl.
      * destruct (access_token_of long_data) as [long|e4] eqn:A2; simpl.
        -- apply access_token_of_ok in A2.
           destruct long_data; try discriminate A2. discriminate.
        -- intros E. injection E as ->.
           exfalso. exact (@access_token_of_raises _ _ A2 status eq_refl).
      * intros E. injection E as ->. eauto.
    + intros E. injection E as ->.
      exfalso. exact (@access_token_of_raises _ _ A1 status eq_refl).
  - intros E. injection E as ->. eauto.
Qed.

(** X22.  Whatever the environment and the upstream do, a failure of the
    callback endpoint is an [HTTPException], with status 500 unless one of
    the two upstream calls failed with an HTTP status error, whose status
    is then passed on. *)
Theorem instagram_callback_errors (request : InstagramAuthRequest) (e : exn) :
  instagram_callback getenv http_get request = Raise e ->
  exists status,
    e = HTTPException status
    /\ (status = 500%N
        \/ exists url params, http_get url params = Raise (HTTPStatusError status)).
Proof.
  unfold instagram_callback.
  destruct (get_instagram_config getenv) as [config|e0] eqn:C; simpl.
  - intros H. apply catch_oauth_raises in H as (e0 & B & ->).
    destruct e0; simpl; try (exists 500%N; split; [reflexivity|now left]).
    exists status. split; [reflexivity|]. right.
    eapply callback_body_status. eassumption.
  - intros H. injection H as <-. apply get_instagram_config_raises in C. subst e0.
    exists 500%N. split; [reflexivity|now left].
Qed.

(** X23.  When both exchanges answer with an object that has an
    access_token, the second exchange is made with the token the first one
    returned, and the answer carries the token of the second exchange, the
    type "long-lived", and its expires_in, 5184000 when it has none. *)
Theorem callback_success (request : InstagramAuthRequest) (config : InstagramConfig)
    (token_data long_lived_data : dict) :
  get_instagram_config getenv = Ok config ->
  http_get (u "https://graph.facebook.com/v18.0/oauth/access_token")
    (code_exchange_params config (callback_redirect config request) request)
    = Ok (PDict token_data) ->
  dict_mem token_data (u "access_token") = true ->
  http_get (u "https://graph.instagram.com/access_token")
    (token_exchange_params config (dict_get token_data (u "access_token")))
    = Ok (PDict long_lived_data) ->
  dict_mem long_lived_data (u "access_token") = true ->
  instagram_callback getenv http_get request
  = Ok [ (u "accessToken", dict_get long_lived_data (u "access_token"));
         (u "tokenType", PStr (u "long-lived"));
         (u "expiresIn",
            dict_get_default long_lived_data (u "expires_in") (PInt 5184000)) ].
Proof.
  intros C H1 M1 H2 M2. unfold instagram_callback. rewrite C. simpl.
  unfold instagram_callback_body. rewrite H1. simpl.
  rewrite (@access_token_of_present _ M1). simpl. rewrite H2. simpl.
  rewrite (@access_token_of_present _ M2). reflexivity.
Qed.

(** X24.  A profile answer with an error key does not give the 400 written
    for it either: raised inside the [try], it reaches the caller as 500. *)
Theorem profile_error_is_500 (request : InstagramProfileRequest)
    (profile_data : dict) :
  http_get (profile_url request) (profile_params request) = Ok (PDict profile_data) ->
  dict_mem profile_data (u "error") = true ->
  get_instagram_profile http_get coerce_str request = Raise (HTTPException 500).
Proof.
  intros H M. unfold get_instagram_profile, get_instagram_profile_body.
  rewrite H. cbn [bind py_in]. rewrite M. cbn [bind py_subscript]. rewrite M.
  reflexivity.
Qed.

(** X25.  The profile of an account, when the answer is an object without
    an error key whose text fields are strings or missing: the name is the
    account's name, and its username when the name is missing or empty;
    the industry is always "Social Media" and the address always null; the
    biography, website and picture are passed on as they are. *)
Theorem profile_mapping (request : InstagramProfileRequest) (profile_data : dict) :
  http_get (profile_url request) (profile_params request) = Ok (PDict profile_data) ->
  dict_mem profile_data (u "error") = false ->
  Forall (fun k => dict_get profile_data k = PNone
                   \/ exists s, dict_get profile_data k = PStr s)
    [ u "name"; u "username"; u "biography"; u "website"; u "profile_pic_url" ] ->
  get_instagram_profile http_get coerce_str request
  = Ok {| businessName :=
            field_of (por (dict_get profile_data (u "name"))
                          (dict_get profile_data (u "username")));
          description := field_of (dict_get profile_data (u "biography"));
          industry := Some (u "Social Media");
          address := None;
          website := field_of (dict_get profile_data (u "website"));
          logo := field_of (dict_get profile_data (u "profile_pic_url"));
          rawMetadata :=
            Some [ (u "platform", PStr (u "instagram"));
                   (u "username", dict_get profile_data (u "username"));
                   (u "followersCount", dict_get profile_data (u "followers_count"));
                   (u "mediaCount", dict_get profile_data (u "media_count"));
                   (u "igId", dict_get profile_data (u "ig_id")) ];
          requiresAuth := None;
          platform := None;
          authUrl := None |}.
Proof.
  intros H M F. unfold get_instagram_profile, get_instagram_profile_body.
  rewrite H. cbn [bind py_in]. rewrite M. cbn [bind py_get].
  inversion F as [|? ? Fn F1]; subst. inversion F1 as [|? ? Fu F2]; subst.
  inversion F2 as [|? ? Fb F3]; subst. inversion F3 as [|? ? Fw F4]; subst.
  inversion F4 as [|? ? Fp _]; subst.
  fold (dict_get profile_data (u "name")).
  fold (dict_get profile_data (u "username")).
  fold (dict_get profile_data (u "biography")).
  fold (dict_get profile_data (u "website")).
  fold (dict_get profile_data (u "profile_pic_url")).
  fold (dict_get profile_data (u "followers_count")).
  fold (dict_get profile_data (u "media_count")).
  fold (dict_get profile_data (u "ig_id")).
  assert (V : forall v, v = PNone \/ (exists s, v = PStr s) ->
                validate_str coerce_str v = Ok (field_of v))
    by (intros v [->|[s ->]]; reflexivity).
  assert (Fnu : por (dict_get profile_data (u "name"))
                    (dict_get profile_data (u "username")) = PNone
                \/ exists s, por (dict_get profile_data (u "name"))
                               (dict_get profile_data (u "username")) = PStr s).
  { unfold por. destruct (truthy (dict_get profile_data (u "name"))); assumption. }
  rewrite (V _ Fnu), (V _ Fb), (V _ Fw), (V _ Fp). reflexivity.
Qed.

End OAuth.

(* ===================================================================== *)
(** ** The further properties on concrete inputs *)
(* ===================================================================== *)

Lemma sniffed_address_from_footer_witness :
  exists footer,
    find footer_page (u "footer") any_attrs = Some footer
    /\ contains (u "123 Main Street, Springfield, IL 62704") (get_text footer) = true
    /\ exists c m', u "123 Main Street, Springfield, IL 62704" = c :: m'
                    /\ is_digit latin1_isdecimal c = true.
Proof.
  apply (@sniffed_address_from_footer latin1_isdecimal footer_page
           (u "123 Main Street, Springfield, IL 62704")).
  vm_compute. reflexivity.
Defined.

(** The string "oops" cuts the block short: Acme is kept, the third item is
    never merged. *)
Lemma schema_block_cut_short_witness :
  schema_loop ascii_lower cut_short_loads [] [cut_short_script]
  = schema_loop ascii_lower cut_short_loads
      [ (u "businessName", PStr (u "Acme")); (u "description", PStr (u "First"));
        (u "address", PNone); (u "industry", PNone) ] [].
Proof.
  apply (@schema_block_cut_short ascii_lower cut_short_loads [] _ cut_short_script
           cut_short_text [first_org] (PStr (u "oops")) [second_org] []);
    vm_compute; reflexivity.
Defined.

Lemma schema_type_error_escapes_witness :
  schema_loop ascii_lower country_object_loads [] [country_object_script]
  = Raise TypeError.
Proof.
  apply (@schema_type_error_escapes ascii_lower country_object_loads [] []
           country_object_script country_object_text [] country_object_item [] []);
    vm_compute; reflexivity.
Defined.

Lemma schema_keys_witness :
  dict_get [ (u "businessName", PNone); (u "description", PStr (u "Second"));
             (u "address", PNone); (u "industry", PNone) ] (u "logo") = PNone.
Proof.
  apply (@schema_keys ascii_lower two_orgs_loads two_orgs_page
           [ (u "businessName", PNone); (u "description", PStr (u "Second"));
             (u "address", PNone); (u "industry", PNone) ]).
  vm_compute. reflexivity.
Defined.

Lemma record_website_witness :
  exists r,
    engine ascii_lower latin1_isalnum latin1_isdecimal (loads_table []) strict_str
      og_type_page salon_url = Ok r
    /\ website r = Some (u "https://acme.example/home").
Proof.
  eexists. split; [vm_compute; reflexivity|].
  apply (@record_website ascii_lower latin1_isalnum latin1_isdecimal (loads_table [])
           strict_str og_type_page salon_url).
  vm_compute. reflexivity.
Defined.

Lemma record_raw_metadata_witness :
  exists r schema_data,
    engine ascii_lower latin1_isalnum latin1_isdecimal (loads_table []) strict_str
      pizza_page pizza_url = Ok r
    /\ extract_from_schema_org ascii_lower (loads_table []) pizza_page = Ok schema_data
    /\ rawMetadata r
       = Some [ (u "schema", PDict schema_data);
                (u "openGraph", PDict (extract_from_open_graph ascii_lower pizza_page));
                (u "twitter", PDict (extract_from_twitter_card ascii_lower pizza_page));
                (u "html", PDict (extract_from_html pizza_page pizza_url));
                (u "detectedIndustry",
                   detect_industry_from_url ascii_lower pizza_url pizza_page) ].
Proof.
  eexists.
  destruct (@record_raw_metadata ascii_lower latin1_isalnum latin1_isdecimal
              (loads_table []) strict_str pizza_page pizza_url _
              (eq_refl : engine ascii_lower latin1_isalnum latin1_isdecimal
                           (loads_table []) strict_str pizza_page pizza_url = Ok _))
    as (sd & E & R).
  exists sd. split; [reflexivity|]. split; [exact E|exact R].
Defined.

(** The URL names a salon, and the record says "website": og:type wins. *)
Lemma record_industry_witness :
  exists r,
    engine ascii_lower latin1_isalnum latin1_isdecimal (loads_table []) strict_str
      og_type_page salon_url = Ok r
    /\ detect_industry_from_url ascii_lower salon_url og_type_page = PStr (u "Salon")
    /\ industry r = Some (u "website").
Proof.
  eexists. split; [vm_compute; reflexivity|].
  split; [vm_compute; reflexivity|].
  apply (proj2 (@record_industry ascii_lower latin1_isalnum latin1_isdecimal
                  (loads_table []) strict_str og_type_page salon_url _ []
                  eq_refl eq_refl)).
  reflexivity.
Defined.


Lemma non_string_name_fails_witness :
  engine ascii_lower latin1_isalnum latin1_isdecimal numeric_name_loads strict_str
    numeric_name_page (u "https://acme.example") = Raise TypeError
  /\ extract_metadata ascii_lower latin1_isalnum latin1_isdecimal numeric_name_loads
       strict_str (serve numeric_name_page) (u "https://acme.example")
     = Raise (HTTPException 500).
Proof.
  destruct (@non_string_name_fails ascii_lower latin1_isalnum latin1_isdecimal
              numeric_name_loads strict_str numeric_name_page (u "https://acme.example")
              [ (u "businessName", PInt 404); (u "description", PNone);
                (u "address", PNone); (u "industry", PNone) ]
              (serve numeric_name_page) eq_refl eq_refl eq_refl) as [E F].
  split; [exact E|]. apply F; reflexivity.
Defined.


Lemma callback_missing_token_is_500_witness :
  instagram_callback acme_env refusing_upstream acme_auth_request
  = Raise (HTTPException 500).
Proof.
  apply (@callback_missing_token_is_500 acme_env refusing_upstream acme_auth_request
           acme_config [ (u "error", PStr (u "invalid code")) ]);
    vm_compute; reflexivity.
Defined.

(** No upstream answers: the 404 of the first exchange is passed on. *)
Lemma instagram_callback_errors_witness :
  exists status,
    HTTPException 404 = HTTPException status
    /\ (status = 500%N
        \/ exists url params, http_table [] url params = Raise (HTTPStatusError status)).
Proof.
  apply (@instagram_callback_errors acme_env (http_table []) acme_auth_request
           (HTTPException 404)).
  vm_compute. reflexivity.
Defined.

Lemma callback_success_witness :
  instagram_callback acme_env granting_upstream acme_auth_request
  = Ok [ (u "accessToken", PStr (u "long-1"));
         (u "tokenType", PStr (u "long-lived"));
         (u "expiresIn", PInt 5184000) ].
Proof.
  apply (@callback_success acme_env granting_upstream acme_auth_request acme_config
           [ (u "access_token", PStr (u "short-1")) ]
           [ (u "access_token", PStr (u "long-1")) ]);
    vm_compute; reflexivity.
Defined.

Lemma profile_error_is_500_witness :
  get_instagram_profile profile_error_upstream strict_str acme_profile_request
  = Raise (HTTPException 500).
Proof.
  apply (@profile_error_is_500 profile_error_upstream strict_str acme_profile_request
           [ (u "error", PStr (u "expired token")) ]);
    vm_compute; reflexivity.
Defined.

(** The name is empty: the record is named after the username. *)
Lemma profile_mapping_witness :
  exists r,
    get_instagram_profile profile_upstream strict_str acme_profile_request = Ok r
    /\ businessName r = Some (u "acme.salon")
    /\ industry r = Some (u "Social Media")
    /\ address r = None.
Proof.
  eexists. split.
  - apply (@profile_mapping profile_upstream strict_str acme_profile_request
             [ (u "username", PStr (u "acme.salon"));
               (u "name", PStr []);
               (u "biography", PStr (u "Hair and nails"));
               (u "followers_count", PInt 1200) ]).
    + vm_compute. reflexivity.
    + vm_compute. reflexivity.
    + repeat (apply Forall_cons;
              [first [left; vm_compute; reflexivity
                     |right; eexists; vm_compute; reflexivity]|]).
      apply Forall_nil.
  - repeat split; vm_compute; reflexivity.
Defined.

(** X26.  The address of a returned record: a non-empty address string of
    the structured data wins; when the structured data has none, or only
    the empty string the formatter gives for an address object without
    components, the record takes the sniffer's answer. *)
Theorem record_address (lower : pystr -> pystr) (uni_isalnum uni_isdecimal : N -> bool)
    (json_loads : pystr -> option pyval) (coerce_str : pyval -> option pystr)
    (doc : soup) (url : pystr) (r : BusinessMetadata) (schema_data : dict) :
  extract_from_schema_org lower json_loads doc = Ok schema_data ->
  engine lower uni_isalnum uni_isdecimal json_loads coerce_str doc url = Ok r ->
  (forall c s, dict_get schema_data (u "address") = PStr (c :: s) ->
     address r = Some (c :: s))
  /\ (truthy (dict_get schema_data (u "address")) = false ->
      address r = field_of (extract_address_from_text uni_isdecimal doc)).
Proof.
  intros E H.
  apply (@engine_parts lower uni_isalnum uni_isdecimal json_loads coerce_str) in H
    as (sd & m & E' & B & G).
  assert (sd = schema_data) by congruence. subst sd. clear E'.
  apply BusinessMetadata_of_inv in B as (_ & _ & _ & Ba & _).
  rewrite (G (u "address") eq_refl) in Ba. clear G.
  change (dict_get (merge schema_data (extract_from_open_graph lower doc)
                      (extract_from_twitter_card lower doc) (extract_from_html doc url)
                      (detect_industry_from_url lower url doc)
                      (extract_address_from_text uni_isdecimal doc) url) (u "address"))
    with (por (dict_get schema_data (u "address"))
              (extract_address_from_text uni_isdecimal doc)) in Ba.
  split.
  - intros c s S. rewrite S in Ba. simpl in Ba. injection Ba as Ba. now rewrite <- Ba.
  - intros F. rewrite (@por_falsy _ _ F) in Ba.
    destruct (extract_address_from_text_verdict uni_isdecimal doc) as [D|(c & s & D)];
      rewrite D in *; simpl in Ba |- *; injection Ba as Ba; now rewrite <- Ba.
Qed.

Lemma record_address_witness :
  exists r,
    engine ascii_lower latin1_isalnum latin1_isdecimal acme_salon_loads strict_str
      acme_salon_page (u "https://acmesalon.com") = Ok r
    /\ address r = Some (u "1 Main St, Springfield").
Proof.
  eexists. split; [vm_compute; reflexivity|].
  apply (proj1 (@record_address ascii_lower latin1_isalnum latin1_isdecimal
                  acme_salon_loads strict_str acme_salon_page (u "https://acmesalon.com")
                  _ [ (u "businessName", PStr (u "Acme Salon")); (u "description", PNone);
                      (u "address", PStr (u "1 Main St, Springfield"));
                      (u "industry", PNone) ]
                  eq_refl eq_refl)).
  reflexivity.
Defined.
